(** * i3pystatus.weather.weathergov: the weather.gov backend

    A shallow embedding of [src/i3pystatus/weather/weathergov.py] and the
    properties of its fetch-and-normalize cycle.

    - [Py]: the Python values the module handles (what [json.loads] returns,
      plus the [set] and [datetime] objects the method creates), IEEE
      binary64 floats, and the built-in operations the source applies to them,
      each returning a value or raising.
    - [Eff]: the effects of the two classes as a state-and-exception monad
      over the output record [self.data], the parser's [weather_data]
      attribute and a trace of log records, HTTP requests and stores.
    - [WeathergovParser], [Weathergov]: the classes, method by method.
    - [Cycle], [Claims]: what is observed of a cycle, and the statements
      about it.
    - [Sample]: configurations, observations and runtimes to run cycles on.

    Libraries outside the repository ([requests], [json], [datetime],
    printf-style formatting, [repr] of containers) are fields of a [runtime]
    record: every general theorem holds for all of their behaviours. *)

From Stdlib Require Import ZArith List SpecFloat.
From stdpp Require Import gmap strings pretty.

Local Open Scope Z_scope.
Local Set Warnings "-register-all".

(** ** Python values and built-ins *)

Module Py.

(** Subclasses of [Exception] that the operations below raise, and the one
    that stands for any other ([requests] and [json] failures). *)
Inductive exn : Type :=
| TypeError
| KeyError
| IndexError
| AttributeError
| ValueError
| OverflowError
| ZeroDivisionError
| UnboundLocalError
| JSONDecodeError
| OtherException (name : string).

(** The outcome of evaluating an expression. *)
Inductive result (A : Type) : Type :=
| Ok (a : A)
| Err (e : exn).
Arguments Ok {A} a.
Arguments Err {A} e.

Definition rbind {A B : Type} (r : result A) (k : A -> result B) : result B :=
  match r with
  | Ok a => k a
  | Err e => Err e
  end.

(** *** Floats: IEEE 754 binary64, as CPython's [float] *)

Definition prec : Z := 53.
Definition emax : Z := 1024.

Definition float : Type := spec_float.

(** The float nearest to [n/d] (ties to even), signed by [neg]. *)
Definition float_of_ratio (neg : bool) (n d : positive) : float :=
  let '(q, e, l) := SFdiv_core_binary prec emax (Zpos n) 0 (Zpos d) 0 in
  binary_round_aux prec emax neg q e l.

(** The float nearest to [c * 10^k]: how a decimal literal is read. *)
Definition float_of_decimal (c : Z) (k : Z) : float :=
  match c with
  | Z0 => S754_zero false
  | Zpos p =>
      match k with
      | Zneg k' => float_of_ratio false p (Pos.pow 10 k')
      | _ => binary_normalize prec emax (c * 10 ^ k) 0 false
      end
  | Zneg p =>
      match k with
      | Zneg k' => float_of_ratio true p (Pos.pow 10 k')
      | _ => binary_normalize prec emax (c * 10 ^ k) 0 false
      end
  end.

Definition is_finite (f : float) : bool :=
  match f with
  | S754_zero _ | S754_finite _ _ _ => true
  | _ => false
  end.

Definition is_zero (f : float) : bool :=
  match f with
  | S754_zero _ => true
  | _ => false
  end.

(** [float(i)] for an int: [OverflowError] when [i] is beyond the range. *)
Definition float_of_int (i : Z) : result float :=
  let f := binary_normalize prec emax i 0 false in
  if is_finite f then Ok f else Err OverflowError.

(** [a / b] on ints: the correctly rounded quotient. *)
Definition int_truediv (a b : Z) : result float :=
  let neg := xorb (a <? 0) (b <? 0) in
  match b with
  | Z0 => Err ZeroDivisionError
  | _ =>
      match a with
      | Z0 => Ok (S754_zero neg)
      | _ =>
          let f := float_of_ratio neg (Z.to_pos (Z.abs a)) (Z.to_pos (Z.abs b)) in
          if is_finite f then Ok f else Err OverflowError
      end
  end.

(** [x / y] on floats. *)
Definition float_truediv (x y : float) : result float :=
  if is_zero y then Err ZeroDivisionError else Ok (SFdiv prec emax x y).

(** C's [fmod]: the exact remainder of [x / y], with the sign of [x]. *)
Definition fmod (x y : float) : float :=
  match x, y with
  | S754_nan, _ | _, S754_nan => S754_nan
  | S754_infinity _, _ => S754_nan
  | _, S754_zero _ => S754_nan
  | S754_zero _, _ => x
  | S754_finite _ _ _, S754_infinity _ => x
  | S754_finite sx mx ex, S754_finite _ my ey =>
      let e := Z.min ex ey in
      let r := Z.rem (Zpos mx * 2 ^ (ex - e)) (Zpos my * 2 ^ (ey - e)) in
      binary_normalize prec emax (cond_Zopp sx r) e sx
  end.

Definition float_sign (f : float) : bool :=
  match f with
  | S754_zero s | S754_infinity s | S754_finite s _ _ => s
  | S754_nan => false
  end.

(** [x % y] on floats ([float_rem] of CPython): the remainder takes the sign
    of the divisor. *)
Definition float_mod (x y : float) : result float :=
  if is_zero y then Err ZeroDivisionError
  else
    let m := fmod x y in
    match m with
    | S754_zero _ => Ok (S754_zero (float_sign y))
    | S754_finite sm _ _ =>
        if Bool.eqb (float_sign y) sm then Ok m else Ok (SFadd prec emax m y)
    | _ => Ok m
    end.

(** Nearest integer to [n/d], ties to the even one ([d > 0]). *)
Definition round_half_even (n d : Z) : Z :=
  let q := n / d in
  let r := n mod d in
  match 2 * r ?= d with
  | Lt => q
  | Gt => q + 1
  | Eq => if Z.even q then q else q + 1
  end.

(** [round(x)] on a float: an int, or [ValueError] on NaN and
    [OverflowError] on an infinity. *)
Definition float_round (x : float) : result Z :=
  match x with
  | S754_nan => Err ValueError
  | S754_infinity _ => Err OverflowError
  | S754_zero _ => Ok 0
  | S754_finite s m e =>
      Ok (cond_Zopp s
            (match e with
             | Zneg e' => round_half_even (Zpos m) (Zpos (Pos.pow 2 e'))
             | _ => Zpos m * 2 ^ e
             end))
  end.

(** [round(x, ndigits)] on a float, for [ndigits >= 0]: the float nearest to
    the decimal that is nearest to [x]; NaN and infinities round to
    themselves. *)
Definition float_round_digits (x : float) (ndigits : Z) : float :=
  match x with
  | S754_finite s m e =>
      let t :=
        match e with
        | Zneg e' => round_half_even (Zpos m * 10 ^ ndigits) (Zpos (Pos.pow 2 e'))
        | _ => Zpos m * 2 ^ e * 10 ^ ndigits
        end in
      match t with
      | Z0 => S754_zero s
      | _ => float_of_decimal (cond_Zopp s t) (- ndigits)
      end
  | _ => x
  end.

(** *** [repr] of a float *)

(** [n / d < 10^p], for any sign of [p]. *)
Definition below_pow10 (n d p : Z) : bool :=
  match p with
  | Zneg _ => n * 10 ^ (- p) <? d
  | _ => n <? d * 10 ^ p
  end.

(** The position of the decimal point of [n/d > 0]: the least [p] with
    [n/d < 10^p], looked for around the estimate from the bit lengths. *)
Definition decimal_point (n d : Z) : Z :=
  let est := (Z.log2 n - Z.log2 d) * 30103 / 100000 in
  let fix search (fuel : nat) (p : Z) : Z :=
    match fuel with
    | O => p
    | S fuel' => if below_pow10 n d p then p else search fuel' (p + 1)
    end in
  search 6%nat (est - 2).

Definition float_same (x y : float) : bool :=
  match x, y with
  | S754_finite sx mx ex, S754_finite sy my ey =>
      Bool.eqb sx sy && (Zpos mx =? Zpos my) && (ex =? ey)
  | S754_zero sx, S754_zero sy => Bool.eqb sx sy
  | S754_infinity sx, S754_infinity sy => Bool.eqb sx sy
  | S754_nan, S754_nan => true
  | _, _ => false
  end.

(** The shortest decimal [c * 10^k] that reads back as the positive float
    [m * 2^e], and among the shortest the nearest: tried with 1, 2, ...
    significant digits on the decimals just below and just above. *)
Definition shortest_decimal (m : positive) (e : Z) : Z * Z :=
  let x := S754_finite false m e in
  let n := match e with Zneg _ => Zpos m | _ => Zpos m * 2 ^ e end in
  let d := match e with Zneg e' => Zpos (Pos.pow 2 e') | _ => 1 end in
  let p := decimal_point n d in
  let fix try (fuel : nat) (digits : Z) : Z * Z :=
    let k := p - digits in
    let num := match k with Zneg _ => n * 10 ^ (- k) | _ => n end in
    let den := match k with Zneg _ => d | _ => d * 10 ^ k end in
    let lo := num / den in
    let r := num mod den in
    let lo_ok := float_same (float_of_decimal lo k) x in
    let hi_ok := float_same (float_of_decimal (lo + 1) k) x in
    let nearest :=
      match 2 * r ?= den with
      | Lt => lo
      | Gt => lo + 1
      | Eq => if Z.even lo then lo else lo + 1
      end in
    match fuel with
    | O => (nearest, k)
    | S fuel' =>
        if lo_ok && hi_ok then (nearest, k)
        else if lo_ok then (lo, k)
        else if hi_ok then (lo + 1, k)
        else try fuel' (digits + 1)
    end in
  try 16%nat 1.

Fixpoint strip_zeros (fuel : nat) (c k : Z) : Z * Z :=
  match fuel with
  | O => (c, k)
  | S fuel' =>
      if (c mod 10 =? 0) && negb (c =? 0)
      then strip_zeros fuel' (c / 10) (k + 1)
      else (c, k)
  end.

Fixpoint zeros (n : nat) : string :=
  match n with
  | O => EmptyString
  | S n' => "0" +:+ zeros n'
  end.

Definition string_drop (n : nat) (s : string) : string :=
  String.substring n (String.length s - n)%nat s.

(** [repr(x)]: the shortest digits, in positional notation when the decimal
    point falls within [-4 < point <= 16], otherwise in exponent notation. *)
Definition float_repr (x : float) : string :=
  match x with
  | S754_nan => "nan"
  | S754_infinity false => "inf"
  | S754_infinity true => "-inf"
  | S754_zero false => "0.0"
  | S754_zero true => "-0.0"
  | S754_finite s m e =>
      let '(c, k) := shortest_decimal m e in
      let '(c, k) := strip_zeros 20 c k in
      let ds := pretty c in
      let len := Z.of_nat (String.length ds) in
      let point := len + k in
      let body :=
        if (point <=? -4) || (16 <? point) then
          String.substring 0 1 ds
          +:+ (if len =? 1 then EmptyString else "." +:+ string_drop 1 ds)
          +:+ "e" +:+ (if point - 1 <? 0 then "-" else "+")
          +:+ (if Z.abs (point - 1) <? 10 then "0" else EmptyString)
          +:+ pretty (Z.abs (point - 1))
        else if point <=? 0 then
          "0." +:+ zeros (Z.to_nat (- point)) +:+ ds
        else if len <=? point then
          ds +:+ zeros (Z.to_nat (point - len)) +:+ ".0"
        else
          String.substring 0 (Z.to_nat point) ds
          +:+ "." +:+ string_drop (Z.to_nat point) ds
      in
      (if s then "-" else EmptyString) +:+ body
  end.

(** *** Values *)

(** What [json.loads] returns ([None], [bool], [int], [float], [str],
    [list], [dict] with string keys, in the order of the document), the
    [set] that [check_weather] builds and the [datetime] that
    [datetime.fromisoformat] returns, kept as the text it was read from. *)
Inductive pyval : Type :=
| PyNone
| PyBool (b : bool)
| PyInt (i : Z)
| PyFloat (f : float)
| PyStr (s : string)
| PyList (l : list pyval)
| PyDict (d : list (string * pyval))
| PySet (l : list pyval)
| PyDatetime (iso : string).

(** The libraries the module calls. *)
Record response : Type := { status_code : Z; content : string }.

Record runtime : Type := {
  (** [requests.get(url, headers=headers)]: a response, or an exception
      (DNS, connection, TLS, timeout, malformed URL). *)
  requests_get : string -> list (string * string) -> result response;
  (** [json.loads(content)]: the decoded value, [JSONDecodeError] on
      malformed JSON, or another exception (undecodable bytes). *)
  json_loads : string -> result pyval;
  (** Whether [datetime.fromisoformat] accepts the string; it raises
      [ValueError] on the others. *)
  isoformat : string -> bool;
  (** [fmt % arg] on a [str]: printf-style formatting. *)
  str_format : string -> pyval -> result string;
  (** [str(v)] for a container or a [datetime]. *)
  object_str : pyval -> string;
}.

(** Numbers: [bool] is a subclass of [int]. *)
Inductive number : Type :=
| NInt (i : Z)
| NFloat (f : float).

Definition as_number (v : pyval) : option number :=
  match v with
  | PyBool b => Some (NInt (if b then 1 else 0))
  | PyInt i => Some (NInt i)
  | PyFloat f => Some (NFloat f)
  | _ => None
  end.

Definition to_float (n : number) : result float :=
  match n with
  | NInt i => float_of_int i
  | NFloat f => Ok f
  end.

(** A binary arithmetic operator on two numbers: on ints when both are, on
    floats otherwise. *)
Definition arith (on_int : Z -> Z -> result pyval)
    (on_float : float -> float -> result float) (a b : number) : result pyval :=
  match a, b with
  | NInt i, NInt j => on_int i j
  | _, _ =>
      rbind (to_float a) (fun x =>
      rbind (to_float b) (fun y =>
      rbind (on_float x y) (fun z => Ok (PyFloat z))))
  end.

Fixpoint repeat_string (n : nat) (s : string) : string :=
  match n with
  | O => EmptyString
  | S n' => s +:+ repeat_string n' s
  end.

Fixpoint repeat_list {A : Type} (n : nat) (l : list A) : list A :=
  match n with
  | O => []
  | S n' => l ++ repeat_list n' l
  end.

(** [a * b] *)
Definition mul (a b : pyval) : result pyval :=
  match as_number a, as_number b with
  | Some x, Some y =>
      arith (fun i j => Ok (PyInt (i * j)))
            (fun f g => Ok (SFmul prec emax f g)) x y
  | _, _ =>
      match a, as_number b, as_number a, b with
      | PyStr s, Some (NInt n), _, _ | _, _, Some (NInt n), PyStr s =>
          Ok (PyStr (repeat_string (Z.to_nat n) s))
      | PyList l, Some (NInt n), _, _ | _, _, Some (NInt n), PyList l =>
          Ok (PyList (repeat_list (Z.to_nat n) l))
      | _, _, _, _ => Err TypeError
      end
  end.

(** [a + b] *)
Definition add (a b : pyval) : result pyval :=
  match as_number a, as_number b with
  | Some x, Some y =>
      arith (fun i j => Ok (PyInt (i + j)))
            (fun f g => Ok (SFadd prec emax f g)) x y
  | _, _ =>
      match a, b with
      | PyStr s, PyStr t => Ok (PyStr (s +:+ t))
      | PyList l, PyList m => Ok (PyList (l ++ m))
      | _, _ => Err TypeError
      end
  end.

(** [a / b] *)
Definition truediv (a b : pyval) : result pyval :=
  match as_number a, as_number b with
  | Some x, Some y =>
      arith (fun i j => rbind (int_truediv i j) (fun z => Ok (PyFloat z)))
            float_truediv x y
  | _, _ => Err TypeError
  end.

(** [a % b]: the floor remainder on numbers, formatting on a [str]. *)
Definition mod_ (rt : runtime) (a b : pyval) : result pyval :=
  match a with
  | PyStr fmt => rbind (str_format rt fmt b) (fun s => Ok (PyStr s))
  | _ =>
      match as_number a, as_number b with
      | Some x, Some y =>
          arith (fun i j => if j =? 0 then Err ZeroDivisionError
                            else Ok (PyInt (i mod j)))
                float_mod x y
      | _, _ => Err TypeError
      end
  end.

(** [round(v)] *)
Definition round (v : pyval) : result pyval :=
  match as_number v with
  | Some (NInt i) => Ok (PyInt i)
  | Some (NFloat f) => rbind (float_round f) (fun i => Ok (PyInt i))
  | None => Err TypeError
  end.

(** [round(v, ndigits)] for [ndigits >= 0] *)
Definition round_digits (v : pyval) (ndigits : Z) : result pyval :=
  match as_number v with
  | Some (NInt i) => Ok (PyInt i)
  | Some (NFloat f) => Ok (PyFloat (float_round_digits f ndigits))
  | None => Err TypeError
  end.

(** [str(v)] *)
Definition str (rt : runtime) (v : pyval) : string :=
  match v with
  | PyNone => "None"
  | PyBool true => "True"
  | PyBool false => "False"
  | PyInt i => pretty i
  | PyFloat f => float_repr f
  | PyStr s => s
  | _ => object_str rt v
  end.

(** [v is None], which on these values is also [v == None] *)
Definition is_None (v : pyval) : bool :=
  match v with
  | PyNone => true
  | _ => false
  end.

Fixpoint assoc (key : string) (d : list (string * pyval)) : option pyval :=
  match d with
  | [] => None
  | (k, v) :: d' => if String.eqb k key then Some v else assoc key d'
  end.

(** [obj.get(key, default)]: only a [dict] has the method. *)
Definition get (obj : pyval) (key : string) (default : pyval) : result pyval :=
  match obj with
  | PyDict d => Ok (match assoc key d with Some v => v | None => default end)
  | _ => Err AttributeError
  end.

(** [obj[index]] *)
Definition getitem (obj index : pyval) : result pyval :=
  match obj with
  | PyDict d =>
      match index with
      | PyStr key =>
          match assoc key d with
          | Some v => Ok v
          | None => Err KeyError
          end
      | PyList _ | PyDict _ | PySet _ => Err TypeError
      | _ => Err KeyError
      end
  | PyList l =>
      match index with
      | PyInt _ | PyBool _ =>
          let i := match index with PyInt i => i | PyBool true => 1 | _ => 0 end in
          let j := if i <? 0 then i + Z.of_nat (length l) else i in
          if j <? 0 then Err IndexError
          else match nth_error l (Z.to_nat j) with
               | Some v => Ok v
               | None => Err IndexError
               end
      | _ => Err TypeError
      end
  | PyStr s =>
      match index with
      | PyInt _ | PyBool _ =>
          let i := match index with PyInt i => i | PyBool true => 1 | _ => 0 end in
          let j := if i <? 0 then i + Z.of_nat (String.length s) else i in
          if j <? 0 then Err IndexError
          else match String.get (Z.to_nat j) s with
               | Some c => Ok (PyStr (String c EmptyString))
               | None => Err IndexError
               end
      | _ => Err TypeError
      end
  | _ => Err TypeError
  end.

(** [datetime.fromisoformat(v)] *)
Definition fromisoformat (rt : runtime) (v : pyval) : result pyval :=
  match v with
  | PyStr s => if isoformat rt s then Ok (PyDatetime s) else Err ValueError
  | _ => Err TypeError
  end.

End Py.

(** ** Effects *)

Module Eff.
Import Py.

Inductive level : Type := DEBUG | ERROR.

(** What a cycle does to the world, in order: log records (with
    [exc_info]), HTTP requests, and assignments [self.data[key] = value]. *)
Inductive event : Type :=
| Log (lvl : level) (msg : string) (exc_info : bool)
| HttpGet (url : string) (headers : list (string * string))
| Store (key : string) (value : pyval).

(** The objects the methods mutate: the output record [self.data], shared
    with the host, and the parser's attribute [weather_data]. *)
Record state : Type := {
  data : gmap string pyval;
  weather_data : pyval;
  trace : list event;
}.

(** How a block of statements ends: it falls through with a value, executes
    [return v], or raises. *)
Inductive outcome (A : Type) : Type :=
| Normal (a : A)
| Return (v : pyval)
| Raise (e : exn).
Arguments Normal {A} a.
Arguments Return {A} v.
Arguments Raise {A} e.

Definition M (A : Type) : Type := state -> outcome A * state.

Definition ret {A : Type} (a : A) : M A := fun st => (Normal a, st).

Definition bind {A B : Type} (m : M A) (k : A -> M B) : M B :=
  fun st =>
    match m st with
    | (Normal a, st') => k a st'
    | (Return v, st') => (Return v, st')
    | (Raise e, st') => (Raise e, st')
    end.

#[global] Instance M_ret : MRet M := @ret.
#[global] Instance M_bind : MBind M := fun A B k m => bind m k.

Definition raise {A : Type} (e : exn) : M A := fun st => (Raise e, st).

(** The statement [return v]. *)
Definition return_ {A : Type} (v : pyval) : M A := fun st => (Return v, st).

(** An expression without effects. *)
Definition lift {A : Type} (r : result A) : M A :=
  fun st =>
    match r with
    | Ok a => (Normal a, st)
    | Err e => (Raise e, st)
    end.

(** [try: body / except <matching>: handler]. A [return] in the body leaves
    the statement. *)
Definition try_except {A : Type} (body : M A) (matching : exn -> bool)
    (handler : exn -> M A) : M A :=
  fun st =>
    match body st with
    | (Raise e, st') =>
        if matching e then handler e st' else (Raise e, st')
    | other => other
    end.

(** Calling a method whose body is [m]: the value it returns, [None] when
    it falls off the end. *)
Definition call (m : M unit) : M pyval :=
  fun st =>
    match m st with
    | (Normal _, st') => (Normal PyNone, st')
    | (Return v, st') => (Normal v, st')
    | (Raise e, st') => (Raise e, st')
    end.

Definition emit (ev : event) : M unit :=
  fun st =>
    (Normal tt,
     {| data := data st; weather_data := weather_data st;
        trace := trace st ++ [ev] |}).

(** [self.logger.debug(msg)], [self.logger.error(msg)] and
    [self.logger.exception(msg)], which logs at ERROR with the traceback. *)
Definition logger_debug (msg : string) : M unit := emit (Log DEBUG msg false).
Definition logger_error (msg : string) (exc_info : bool) : M unit :=
  emit (Log ERROR msg exc_info).
Definition logger_exception (msg : string) : M unit := emit (Log ERROR msg true).

(** [self.data[key] = value] *)
Definition data_setitem (key : string) (value : pyval) : M unit :=
  fun st =>
    (Normal tt,
     {| data := <[key := value]> (data st); weather_data := weather_data st;
        trace := trace st ++ [Store key value] |}).

(** [self.weather_data = value] and [self.weather_data] on the parser. *)
Definition set_weather_data (value : pyval) : M unit :=
  fun st =>
    (Normal tt,
     {| data := data st; weather_data := value; trace := trace st |}).

Definition get_weather_data_attr : M pyval :=
  fun st => (Normal (weather_data st), st).

(** [requests.get(url, headers=headers)] *)
Definition http_get (rt : runtime) (url : string)
    (headers : list (string * string)) : M response :=
  emit (HttpGet url headers);; lift (requests_get rt url headers).

(** Reading a local variable that an earlier branch may have left unbound. *)
Definition local {A : Type} (v : option A) : M A :=
  match v with
  | Some a => ret a
  | None => raise UnboundLocalError
  end.

(** [except Exception] *)
Definition any_Exception (e : exn) : bool := true.

End Eff.

(** ** class WeathergovParser *)

Module WeathergovParser.
Import Py Eff.

Section Methods.
Variable rt : runtime.

Definition load_json_body (json_input : string) : M unit :=
  logger_debug ("Loading the following data as JSON: " +:+ json_input);;
  try_except
    (v ← lift (json_loads rt json_input);
     return_ v)
    (fun e => match e with JSONDecodeError => true | _ => false end)
    (fun exc =>
       (* the text of [exc] that the source appends is left out *)
       logger_debug "Error loading JSON: ";;
       logger_debug ("String that failed to load: " +:+ json_input));;
  return_ PyNone.

Definition load_json (json_input : string) : M pyval :=
  call (load_json_body json_input).

Definition headers : list (string * string) :=
  [("Accept", "application/geo+json");
   ("User-Agent", "(i3pystatus.weather.Weathergov)")].

Definition get_weather_data_body (url : string) : M unit :=
  logger_debug ("Making request to " +:+ url
                +:+ " to retrieve current weather data");;
  set_weather_data PyNone;;
  try_except
    (r ← http_get rt url headers;
     if negb (status_code r =? 200) then
       logger_debug "Bad request response.";;
       wd ← get_weather_data_attr;
       return_ wd
     else
       v ← load_json (content r);
       set_weather_data v;;
       wd ← get_weather_data_attr;
       return_ wd)
    any_Exception
    (fun exc =>
       logger_exception "Exception raised while attempting to get weather data").

Definition get_weather_data (url : string) : M pyval :=
  call (get_weather_data_body url).

End Methods.
End WeathergovParser.

(** ** class Weathergov *)

Module Weathergov.
Import Py Eff.

(** The attributes the host sets from the keyword arguments, with the class
    defaults for the others. [station_code] has no class default: it is in
    [vars(self)] only when it was passed. *)
Record settings : Type := {
  station_code : option string;
  location_code : option pyval;
  units : string;
  update_error : string;
}.

Definition default_location_code : option pyval := None.
Definition default_units : string := "metric".
Definition default_update_error : string := "!".

(** The instance after [init]. *)
Record instance : Type := {
  config : settings;
  forecast_url : string;
}.

(** [url_template.format] applied to the attributes of the instance *)
Definition url_template_format (station : string) : string :=
  "https://api.weather.gov/stations/" +:+ station
  +:+ "/observations/latest?require_qc=false".

Section Methods.
Variable rt : runtime.

Definition init (s : settings) : result instance :=
  let location_code' :=
    match location_code s with
    | Some v => Some (PyStr (str rt v))
    | None => None
    end in
  match station_code s with
  | None => Err KeyError
  | Some station =>
      Ok {| config := {| station_code := station_code s;
                         location_code := location_code';
                         units := units s;
                         update_error := update_error s |};
            forecast_url := url_template_format station |}
  end.

Definition toFahrenheit (value : pyval) : M pyval :=
  x ← lift (mul value (PyFloat (float_of_decimal 18 (-1))));
  lift (add x (PyInt 32)).

(** [observed.get(name, {}).get('value')] *)
Definition nested_value (observed : pyval) (name : string) : M pyval :=
  o ← lift (get observed name (PyDict []));
  lift (get o "value" PyNone).

(** [round(a / b)] *)
Definition round_quotient (a b : pyval) : M pyval :=
  q ← lift (truediv a b);
  lift (round q).

(** The locals that the two branches on [units] assign. [wind_gust] stays
    unbound when the raw gust is [None]. *)
Record converted : Type := {
  current_temp : pyval;
  high_temp : pyval;
  low_temp : pyval;
  dewpoint : pyval;
  heat_index : pyval;
  temp_unit : string;
  wind_speed : pyval;
  wind_gust : option pyval;
  wind_unit : string;
  pressure : pyval;
  pressure_unit : string;
  visibility : pyval;
  visibility_unit : string;
}.

(** The literal of line 180: braces, hence a [set]. *)
Definition directions : pyval :=
  PySet [PyStr "N"; PyStr "NE"; PyStr "E"; PyStr "SE"; PyStr "S";
         PyStr "SW"; PyStr "W"; PyStr "NW"; PyStr "N"].

(** Lines 166 to 169: [observation_time] is bound only when [fromisoformat]
    returns; [except Exception: pass] swallows every failure. *)
Definition parse_timestamp (observed : pyval) : M (option pyval) :=
  try_except
    (t ← lift (get observed "timestamp" (PyStr EmptyString));
     d ← lift (fromisoformat rt t);
     ret (Some d))
    any_Exception
    (fun _ => ret None).

(** Line 182: [round((wind_deg % 360) / 45)] *)
Definition wind_index_of (wind_deg : pyval) : M pyval :=
  m ← lift (mod_ rt wind_deg (PyInt 360));
  round_quotient m (PyInt 45).

Section Cycle.
Variable self : instance.
(** The value bound to the local [directions]; [check_weather] below takes
    the literal of the source. *)
Variable directions_ : pyval.

Definition marker : pyval := PyStr (update_error (config self)).

(** The statements of the [try] block, lines 145 to 246. *)
Definition check_weather_try : M unit :=
  WeathergovParser.get_weather_data rt (forecast_url self);;
  wd ← get_weather_data_attr;
  (if is_None wd then
     logger_error ("Failed to read weather data from page. Run module with "
                   +:+ "debug logging to get more information.") false;;
     data_setitem "update_error" marker;;
     return_ PyNone
   else ret tt);;
  observed ←
    try_except
      (lift (getitem wd (PyStr "properties")))
      (fun e => match e with KeyError => true | _ => false end)
      (fun _ =>
         logger_error ("Failed to retrieve current conditions from API response. "
                       +:+ "Run module with debug logging to get more information.")
                      false;;
         data_setitem "update_error" marker;;
         return_ PyNone);
  observation_time ← parse_timestamp observed;
  current_tempC ← nested_value observed "temperature";
  let high_tempC := PyInt 0 in
  let low_tempC := PyInt 0 in
  dewpointC ← nested_value observed "dewpoint";
  let directions := directions_ in
  wind_deg ← nested_value observed "windDirection";
  wind_index ← wind_index_of wind_deg;
  wind_direction ← lift (getitem directions wind_index);
  wind_speedKPH ← nested_value observed "windSpeed";
  wind_gustKPH ← nested_value observed "windGust";
  pressurePa ← nested_value observed "barometricPressure";
  visibilityM ← nested_value observed "visibility";
  heat_indexC ← nested_value observed "heatIndex";
  c ←
    (if String.eqb (units (config self)) "imperial" then
       current_temp ← toFahrenheit current_tempC;
       high_temp ← toFahrenheit high_tempC;
       low_temp ← toFahrenheit low_tempC;
       dewpoint ← toFahrenheit dewpointC;
       heat_index ← toFahrenheit heat_indexC;
       wind_speed ← round_quotient wind_speedKPH
                      (PyFloat (float_of_decimal 1609 (-3)));
       wind_gust ←
         (if negb (is_None wind_gustKPH) then
            g ← round_quotient wind_gustKPH
                  (PyFloat (float_of_decimal 1609 (-3)));
            ret (Some g)
          else ret None);
       pressure ← round_quotient pressurePa (PyInt 3386);
       visibility ← round_quotient visibilityM (PyInt 1609);
       ret {| current_temp := current_temp; high_temp := high_temp;
              low_temp := low_temp; dewpoint := dewpoint;
              heat_index := heat_index; temp_unit := "°F";
              wind_speed := wind_speed; wind_gust := wind_gust;
              wind_unit := "mph"; pressure := pressure;
              pressure_unit := "in"; visibility := visibility;
              visibility_unit := "mi" |}
     else
       heat_index ← lift (round_digits heat_indexC 1);
       wind_speed ← lift (round wind_speedKPH);
       wind_gust ←
         (if negb (is_None wind_gustKPH) then
            g ← lift (round wind_gustKPH);
            ret (Some g)
          else ret None);
       pressure ← round_quotient pressurePa (PyInt 100);
       visibility ← round_quotient visibilityM (PyInt 1000);
       ret {| current_temp := current_tempC; high_temp := high_tempC;
              low_temp := low_tempC; dewpoint := dewpointC;
              heat_index := heat_index; temp_unit := "°C";
              wind_speed := wind_speed; wind_gust := wind_gust;
              wind_unit := "kph"; pressure := pressure;
              pressure_unit := "mb"; visibility := visibility;
              visibility_unit := "km" |});
  text ← lift (get observed "textDescription" PyNone);
  data_setitem "text_description" (PyStr (str rt text));;
  ot ← local observation_time;
  data_setitem "observation_time" ot;;
  data_setitem "current_temp" (PyStr (str rt (current_temp c)));;
  data_setitem "high_temp" (PyStr (str rt (high_temp c)));;
  data_setitem "low_temp" (PyStr (str rt (low_temp c)));;
  data_setitem "dewpoint" (PyStr (str rt (dewpoint c)));;
  data_setitem "temp_unit" (PyStr (temp_unit c));;
  data_setitem "wind_direction" wind_direction;;
  data_setitem "wind_speed" (PyStr (str rt (wind_speed c)));;
  (if is_None wind_gustKPH then
     data_setitem "wind_gust" (PyStr EmptyString)
   else
     g ← local (wind_gust c);
     data_setitem "wind_gust" (PyStr (str rt g)));;
  data_setitem "wind_unit" (PyStr (wind_unit c));;
  data_setitem "pressure" (PyStr (str rt (pressure c)));;
  data_setitem "pressure_unit" (PyStr (pressure_unit c));;
  data_setitem "visibility" (PyStr (str rt (visibility c)));;
  data_setitem "visibility_unit" (PyStr (visibility_unit c));;
  humidity ← nested_value observed "relativeHumidity";
  rounded ← lift (round humidity);
  data_setitem "humidity" (PyStr (str rt rounded +:+ "%"));;
  data_setitem "heat_index" (PyStr (str rt (heat_index c))).

(** The handler of the enclosing [except Exception], lines 248 to 254. *)
Definition check_weather_except (e : exn) : M unit :=
  logger_error ("Uncaught error occurred while checking weather. "
                +:+ "Exception follows: ") true;;
  data_setitem "update_error" marker.

Definition check_weather_body : M unit :=
  (if negb (String.eqb (units (config self)) "imperial"
            || String.eqb (units (config self)) "metric") then
     logger_error ("Units must be one of (imperial, metric)! See the "
                   +:+ "documentation for more information.") false;;
     data_setitem "update_error" marker;;
     return_ PyNone
   else ret tt);;
  data_setitem "update_error" (PyStr EmptyString);;
  (match location_code (config self) with
   | None =>
       logger_error ("A location_code is required to check weather.gov. See the "
                     +:+ "documentation for more information.") false;;
       data_setitem "update_error" marker;;
       return_ PyNone
   | Some _ => ret tt
   end);;
  data_setitem "update_error" (PyStr EmptyString);;
  try_except check_weather_try any_Exception check_weather_except.

End Cycle.

(** One cycle: the method [check_weather], called by the host once its
    connectivity gate [require(internet)] has let the cycle through. *)
Definition check_weather (self : instance) : M pyval :=
  call (check_weather_body self directions).

(** The same method with another object bound to [directions]. *)
Definition check_weather_with (directions_ : pyval) (self : instance) : M pyval :=
  call (check_weather_body self directions_).

(** Modelled from the spec: the decorator [require] of
    [i3pystatus.core.util], which is not among the sources. "A
    connectivity-check collaborator invoked as a precondition gate before
    each cycle: if unavailable, the cycle is skipped entirely by the host." *)
Definition require (predicate : bool) (method : M pyval) : M pyval :=
  if predicate then method else ret PyNone.

End Methods.
End Weathergov.

(** ** What a cycle leaves behind *)

Module Cycle.
Import Py Eff.

Definition update_error_key : string := "update_error".

(** The events that a run from [st] to [st'] appended. *)
Definition events_since (st st' : state) : list event :=
  drop (length (trace st)) (trace st').

(** A field of the output record was written. *)
Definition populated (evs : list event) (key : string) : Prop :=
  ∃ v, Store key v ∈ evs.

(** A request went out. *)
Definition fetched (evs : list event) : Prop :=
  ∃ url hs, HttpGet url hs ∈ evs.

(** The record shows an error: [update_error] holds a non-empty string. *)
Definition error_shown (d : gmap string pyval) : Prop :=
  ∃ s, d !! update_error_key = Some (PyStr s) ∧ s ≠ EmptyString.

Definition no_store (ev : event) : Prop :=
  match ev with
  | Store _ _ => False
  | _ => True
  end.

Definition stores_only (key : string) (ev : event) : Prop :=
  match ev with
  | Store k _ => k = key
  | _ => True
  end.

(** [st'] extends [st] without touching the record. *)
Definition quiet_rel (st st' : state) : Prop :=
  data st' = data st
  ∧ ∃ evs, trace st' = trace st ++ evs ∧ Forall no_store evs.

(** [st'] extends [st] and the last thing done was to store the marker. *)
Definition marked_rel (mk : pyval) (st st' : state) : Prop :=
  data st' = <[update_error_key := mk]> (data st)
  ∧ ∃ evs, trace st' = trace st ++ evs ++ [Store update_error_key mk]
           ∧ Forall no_store evs.

(** [st'] extends [st], differs from it in [update_error] at most, and
    holds the marker there. *)
Definition cycle_rel (mk : pyval) (st st' : state) : Prop :=
  data st' = <[update_error_key := mk]> (data st)
  ∧ ∃ evs, trace st' = trace st ++ evs
           ∧ Forall (stores_only update_error_key) evs.

Definition quiet {A : Type} (m : M A) : Prop :=
  ∀ st, quiet_rel st (m st).2.

Definition never_returns {A : Type} (m : M A) : Prop :=
  ∀ st v st', m st ≠ (Return v, st').

Definition never_raises {A : Type} (m : M A) : Prop :=
  ∀ st e st', m st ≠ (Raise e, st').

Definition never_falls_through {A : Type} (m : M A) : Prop :=
  ∀ st a st', m st ≠ (Normal a, st').

(** A block that leaves the record alone unless it gives up, and gives up
    only by storing the marker and returning [None]. *)
Definition guarded (mk : pyval) {A : Type} (m : M A) : Prop :=
  ∀ st,
    match m st with
    | (Return v, st') => v = PyNone ∧ marked_rel mk st st'
    | (_, st') => quiet_rel st st'
    end.

(** The claim that the error field tells whether the cycle wrote anything
    else, and that a failing cycle keeps the other fields. *)
Definition error_iff_nothing_populated (st st' : state) : Prop :=
  error_shown (data st')
  ↔ ∀ key, key ≠ update_error_key → ¬ populated (events_since st st') key.

Definition failure_keeps_fields (st st' : state) : Prop :=
  error_shown (data st')
  → ∀ key, key ≠ update_error_key → data st' !! key = data st !! key.

End Cycle.

(** ** The claims about a cycle, as stated *)

Module Claims.
Import Py Eff Cycle Weathergov.

(** After a cycle from [st]: the error field is shown exactly when the
    cycle populated no other field, and a failing cycle keeps the others. *)
Definition update_error_invariant (rt : runtime) (self : instance)
    (st : state) : Prop :=
  let st' := (check_weather rt self st).2 in
  error_iff_nothing_populated st st' ∧ failure_keeps_fields st st'.

(** The cycle gave up on the configuration: it logged [msg], stored the
    marker, returned [None], and sent no request. *)
Definition gave_up_before_fetch (rt : runtime) (self : instance)
    (st : state) (before : list event) (msg : string) : Prop :=
  let st' := (check_weather rt self st).2 in
  (check_weather rt self st).1 = Normal PyNone
  ∧ data st' = <[update_error_key := marker self]> (data st)
  ∧ events_since st st'
    = before ++ [Log ERROR msg false; Store update_error_key (marker self)]
  ∧ ¬ fetched (events_since st st').

Definition units_message : string :=
  "Units must be one of (imperial, metric)! See the "
  +:+ "documentation for more information.".

Definition location_code_message : string :=
  "A location_code is required to check weather.gov. See the "
  +:+ "documentation for more information.".

(** A second cycle on the record that a first one left changes nothing in
    it, and the record that a cycle leaves depends on the record alone, not
    on the parser's attribute or on what happened before. *)
Definition idempotent_on_record (rt : runtime) (self : instance)
    (st : state) : Prop :=
  let st1 := (check_weather rt self st).2 in
  data (check_weather rt self st1).2 = data st1
  ∧ ∀ wd tr,
      data (check_weather rt self
              {| data := data st; weather_data := wd; trace := tr |}).2
      = data st1.

End Claims.

(** ** Sample configurations and observations *)

Module Sample.
Import Py Eff Weathergov.

(** A measurement of the API: an object with a [value]. *)
Definition measured (v : pyval) : pyval :=
  PyDict [("unitCode", PyStr "wmoUnit"); ("value", v)].

(** A response body as decoded, with the given heading, gust and
    timestamp entries. *)
Definition observation (timestamp : list (string * pyval))
    (wind_deg gust : pyval) : pyval :=
  PyDict
    [("id", PyStr "https://api.weather.gov/stations/KNYC/observations/latest");
     ("properties",
      PyDict
        (timestamp ++
         [("textDescription", PyStr "Cloudy");
          ("temperature", measured (PyInt 20));
          ("dewpoint", measured (PyFloat (float_of_decimal 125 (-1))));
          ("windDirection", measured wind_deg);
          ("windSpeed", measured (PyFloat (float_of_decimal 1476 (-2))));
          ("windGust", measured gust);
          ("barometricPressure", measured (PyInt 101320));
          ("visibility", measured (PyInt 16090));
          ("relativeHumidity", measured (PyFloat (float_of_decimal 62345 (-3))));
          ("heatIndex", measured (PyFloat (float_of_decimal 2136 (-2))))]))].

Definition timestamp : list (string * pyval) :=
  [("timestamp", PyStr "2024-01-01T00:00:00+00:00")].

(** A runtime whose server answers with [status] and [body], where [body]
    decodes to [decoded] ([None] standing for malformed JSON). *)
Definition serving (status : Z) (body : string) (decoded : option pyval)
  : runtime :=
  {| requests_get := fun _ _ => Ok {| status_code := status; content := body |};
     json_loads := fun s =>
       match decoded with
       | Some v => if String.eqb s body then Ok v else Err JSONDecodeError
       | None => Err JSONDecodeError
       end;
     isoformat := fun s => String.eqb s "2024-01-01T00:00:00+00:00";
     str_format := fun _ _ => Err TypeError;
     object_str := fun _ => "<object>" |}.

(** A runtime whose network is down. *)
Definition offline : runtime :=
  {| requests_get := fun _ _ => Err (OtherException "ConnectionError");
     json_loads := fun _ => Err JSONDecodeError;
     isoformat := fun _ => false;
     str_format := fun _ _ => Err TypeError;
     object_str := fun _ => "<object>" |}.

Definition answering (decoded : pyval) : runtime :=
  serving 200 "{...}" (Some decoded).

Definition dquote : string := String (Ascii.ascii_of_nat 34) EmptyString.

(** The configuration of the usage example in the class docstring. *)
Definition docstring_settings : settings :=
  {| station_code := Some "KNYC";
     location_code := default_location_code;
     units := "imperial";
     update_error := "<span color=" +:+ dquote +:+ "#ff000" +:+ dquote
                     +:+ ">!</span>" |}.

(** A configuration that passes both checks of [check_weather]. *)
Definition settings_with (u marker_ : string) : settings :=
  {| station_code := Some "KNYC";
     location_code := Some (PyStr "KNYC");
     units := u;
     update_error := marker_ |}.

Definition instance_of (s : settings) : instance :=
  {| config := s; forecast_url := url_template_format "KNYC" |}.

(** The host's record before the first cycle, and one that an earlier cycle
    has filled. *)
Definition fresh : state :=
  {| data := ∅; weather_data := PyNone; trace := [] |}.

Definition filled : state :=
  {| data := {[ "current_temp" := PyStr "17"; "wind_gust" := PyStr "31" ]};
     weather_data := PyNone; trace := [] |}.

(** The table of directions as a list, the subscriptable object that the
    nine entries call for. *)
Definition directions_list : pyval :=
  PyList [PyStr "N"; PyStr "NE"; PyStr "E"; PyStr "SE"; PyStr "S";
          PyStr "SW"; PyStr "W"; PyStr "NW"; PyStr "N"].

(** The state after one cycle in units [u] with marker "!", when the
    server answers 200 with a body that decodes to [decoded]: as the source
    has it, and with the list bound to [directions]. *)
Definition cycle_on (u : string) (decoded : pyval) (st : state) : state :=
  (check_weather (answering decoded) (instance_of (settings_with u "!")) st).2.

Definition cycle_with_list_on (u : string) (decoded : pyval) (st : state)
  : state :=
  (check_weather_with (answering decoded) directions_list
     (instance_of (settings_with u "!")) st).2.

(** Line 182 on an int heading already reduced modulo 360 lands in the
    table of nine entries. *)
Definition sector_in_table (r : Z) : bool :=
  match rbind (truediv (PyInt r) (PyInt 45)) round with
  | Ok (PyInt i) =>
      (0 <=? i) && (i <=? 8)
      && match getitem directions_list (PyInt i) with
         | Ok (PyStr _) => true
         | _ => false
         end
  | _ => false
  end.

End Sample.

(** ** How a cycle with a valid configuration ends *)

Module Ending.
Import Py Eff Cycle Weathergov.

(** The requests among the events, in order. *)
Definition requests_in (evs : list event)
  : list (string * list (string * string)) :=
  flat_map (λ ev, match ev with HttpGet url hs => [(url, hs)] | _ => [] end) evs.

Definition read_failed_message : string :=
  "Failed to read weather data from page. Run module with "
  +:+ "debug logging to get more information.".

Definition conditions_failed_message : string :=
  "Failed to retrieve current conditions from API response. "
  +:+ "Run module with debug logging to get more information.".

Definition uncaught_message : string :=
  "Uncaught error occurred while checking weather. "
  +:+ "Exception follows: ".

(** The record that a cycle logs last, by the value the fetch left: the
    message of line 147 for [None], that of line 157 for a [dict] without
    "properties", and the catch-all's, with the traceback, for the rest. *)
Definition diagnostic (fetched : pyval) : event :=
  if is_None fetched then Log ERROR read_failed_message false
  else
    match getitem fetched (PyStr "properties") with
    | Err KeyError => Log ERROR conditions_failed_message false
    | _ => Log ERROR uncaught_message true
    end.

(** [units] and [location_code] pass the checks of lines 126 and 135. *)
Definition valid (self : instance) : Prop :=
  (units (config self) = "imperial" ∨ units (config self) = "metric")
  ∧ location_code (config self) ≠ None.

(** A step that, from any state, falls through or raises, and leaves the
    state as it found it. *)
Definition pure_step {A : Type} (m : M A) : Prop :=
  ∀ st, (∃ a, m st = (Normal a, st)) ∨ (∃ e, m st = (Raise e, st)).

(** A block that, from any state, raises and leaves the state as it found
    it. *)
Definition fails_purely {A : Type} (m : M A) : Prop :=
  ∀ st, ∃ e, m st = (Raise e, st).

(** [st] after a fetch that left [v] and appended [evs]. *)
Definition after_fetch (st : state) (v : pyval) (evs : list event) : state :=
  {| data := data st; weather_data := v; trace := trace st ++ evs |}.

End Ending.

(** ** Facts about blocks *)

Import Py Eff Cycle.

Lemma quiet_rel_refl (st : state) : quiet_rel st st.
Proof.
  split; [reflexivity|]. exists []. split; [by rewrite app_nil_r | constructor].
Qed.

Lemma quiet_rel_trans (st1 st2 st3 : state) :
  quiet_rel st1 st2 → quiet_rel st2 st3 → quiet_rel st1 st3.
Proof.
  intros [Hd1 (e1 & Ht1 & Hf1)] [Hd2 (e2 & Ht2 & Hf2)]. split.
  - congruence.
  - exists (e1 ++ e2). split.
    + by rewrite Ht2, Ht1, app_assoc.
    + by apply Forall_app.
Qed.

Lemma quiet_marked_rel (mk : pyval) (st1 st2 st3 : state) :
  quiet_rel st1 st2 → marked_rel mk st2 st3 → marked_rel mk st1 st3.
Proof.
  intros [Hd1 (e1 & Ht1 & Hf1)] [Hd2 (e2 & Ht2 & Hf2)]. split.
  - congruence.
  - exists (e1 ++ e2). split.
    + by rewrite Ht2, Ht1, <- !app_assoc.
    + by apply Forall_app.
Qed.

Lemma quiet_rel_emit (ev : event) (st : state) :
  no_store ev → quiet_rel st (emit ev st).2.
Proof.
  intros Hev. split; [reflexivity|]. exists [ev]. split; [reflexivity|].
  by constructor.
Qed.

(** *** Quiet blocks *)

Lemma quiet_ret {A : Type} (a : A) : quiet (ret a).
Proof. intros st. apply quiet_rel_refl. Qed.

Lemma quiet_raise {A : Type} (e : exn) : quiet (@raise A e).
Proof. intros st. apply quiet_rel_refl. Qed.

Lemma quiet_return {A : Type} (v : pyval) : quiet (@return_ A v).
Proof. intros st. apply quiet_rel_refl. Qed.

Lemma quiet_lift {A : Type} (r : result A) : quiet (lift r).
Proof. intros st. unfold lift. destruct r; apply quiet_rel_refl. Qed.

Lemma quiet_emit (ev : event) : no_store ev → quiet (emit ev).
Proof. intros Hev st. by apply quiet_rel_emit. Qed.

Lemma quiet_set_weather_data (v : pyval) : quiet (set_weather_data v).
Proof.
  intros st. split; [reflexivity|]. exists []. simpl.
  split; [by rewrite app_nil_r | constructor].
Qed.

Lemma quiet_get_weather_data_attr : quiet get_weather_data_attr.
Proof. intros st. apply quiet_rel_refl. Qed.

Lemma quiet_bind {A B : Type} (m : M A) (k : A → M B) :
  quiet m → (∀ a, quiet (k a)) → quiet (m ≫= k).
Proof.
  intros Hm Hk st. unfold mbind, M_bind, bind.
  specialize (Hm st). destruct (m st) as [[a|v|e] st1]; simpl in *; try done.
  eapply quiet_rel_trans; [exact Hm | apply Hk].
Qed.

Lemma quiet_try_except {A : Type} (body : M A) (f : exn → bool)
    (h : exn → M A) :
  quiet body → (∀ e, quiet (h e)) → quiet (try_except body f h).
Proof.
  intros Hb Hh st. unfold try_except.
  specialize (Hb st). destruct (body st) as [[a|v|e] st1]; simpl in *; try done.
  destruct (f e); [|done].
  eapply quiet_rel_trans; [exact Hb | apply Hh].
Qed.

Lemma quiet_call (m : M unit) : quiet m → quiet (call m).
Proof.
  intros Hm st. unfold call. specialize (Hm st).
  by destruct (m st) as [[a|v|e] st1].
Qed.

Lemma call_never_returns (m : M unit) : never_returns (call m).
Proof.
  intros st v st'. unfold call. by destruct (m st) as [[a|w|e] st1].
Qed.

Create HintDb quiet.
#[local] Hint Resolve quiet_ret quiet_raise quiet_return quiet_lift
  quiet_set_weather_data quiet_get_weather_data_attr quiet_call : quiet.

Ltac quiet_steps :=
  repeat first
    [ apply quiet_bind; [|intros ?]
    | apply quiet_try_except; [|intros ?]
    | apply quiet_emit; exact I
    | solve [auto with quiet]
    | match goal with |- quiet (if ?b then _ else _) => destruct b end ].

Lemma quiet_load_json (rt : runtime) (json_input : string) :
  quiet (WeathergovParser.load_json rt json_input).
Proof.
  unfold WeathergovParser.load_json, WeathergovParser.load_json_body,
    logger_debug.
  apply quiet_call. quiet_steps.
Qed.

Lemma quiet_get_weather_data (rt : runtime) (url : string) :
  quiet (WeathergovParser.get_weather_data rt url).
Proof.
  unfold WeathergovParser.get_weather_data,
    WeathergovParser.get_weather_data_body, http_get, logger_debug,
    logger_exception.
  apply quiet_call. quiet_steps. apply quiet_load_json.
Qed.

Lemma quiet_nested_value (observed : pyval) (name : string) :
  quiet (Weathergov.nested_value observed name).
Proof. unfold Weathergov.nested_value. quiet_steps. Qed.

Lemma quiet_round_quotient (a b : pyval) :
  quiet (Weathergov.round_quotient a b).
Proof. unfold Weathergov.round_quotient. quiet_steps. Qed.

Lemma quiet_wind_index_of (rt : runtime) (wind_deg : pyval) :
  quiet (Weathergov.wind_index_of rt wind_deg).
Proof.
  unfold Weathergov.wind_index_of, Weathergov.round_quotient. quiet_steps.
Qed.

Lemma quiet_parse_timestamp (rt : runtime) (observed : pyval) :
  quiet (Weathergov.parse_timestamp rt observed).
Proof. unfold Weathergov.parse_timestamp. quiet_steps. Qed.

(** *** Blocks that never return, raise or fall through *)

Lemma never_returns_lift {A : Type} (r : result A) : never_returns (lift r).
Proof. intros st v st'. unfold lift. by destruct r. Qed.

Lemma never_returns_ret {A : Type} (a : A) : never_returns (ret a).
Proof. by intros st v st'. Qed.

Lemma never_returns_bind {A B : Type} (m : M A) (k : A → M B) :
  never_returns m → (∀ a, never_returns (k a)) → never_returns (m ≫= k).
Proof.
  intros Hm Hk st v st'. unfold mbind, M_bind, bind.
  destruct (m st) as [[a|w|e] st1] eqn:E; [apply Hk | | done].
  by destruct (Hm st w st1).
Qed.

Lemma never_returns_try_except {A : Type} (body : M A) (f : exn → bool)
    (h : exn → M A) :
  never_returns body → (∀ e, never_returns (h e))
  → never_returns (try_except body f h).
Proof.
  intros Hb Hh st v st'. unfold try_except.
  destruct (body st) as [[a|w|e] st1] eqn:E; [done | |].
  - by destruct (Hb st w st1).
  - destruct (f e); [apply Hh | done].
Qed.

Lemma never_falls_through_bind_l {A B : Type} (m : M A) (k : A → M B) :
  never_falls_through m → never_falls_through (m ≫= k).
Proof.
  intros Hm st b st'. unfold mbind, M_bind, bind.
  destruct (m st) as [[a|w|e] st1] eqn:E; [|done..].
  by destruct (Hm st a st1).
Qed.

Lemma never_falls_through_bind_r {A B : Type} (m : M A) (k : A → M B) :
  (∀ a, never_falls_through (k a)) → never_falls_through (m ≫= k).
Proof.
  intros Hk st b st'. unfold mbind, M_bind, bind.
  destruct (m st) as [[a|w|e] st1] eqn:E; [apply Hk | done..].
Qed.

Lemma never_raises_ret {A : Type} (a : A) : never_raises (ret a).
Proof. by intros st e st'. Qed.

Lemma never_raises_return {A : Type} (v : pyval) : never_raises (@return_ A v).
Proof. by intros st e st'. Qed.

Lemma never_raises_emit (ev : event) : never_raises (emit ev).
Proof. by intros st e st'. Qed.

Lemma never_raises_data_setitem (key : string) (v : pyval) :
  never_raises (data_setitem key v).
Proof. by intros st e st'. Qed.

Lemma never_raises_bind {A B : Type} (m : M A) (k : A → M B) :
  never_raises m → (∀ a, never_raises (k a)) → never_raises (m ≫= k).
Proof.
  intros Hm Hk st e st'. unfold mbind, M_bind, bind.
  destruct (m st) as [[a|w|e'] st1] eqn:E; [apply Hk | done |].
  by destruct (Hm st e' st1).
Qed.

(** [except Exception] with a handler that cannot fail lets nothing out. *)
Lemma never_raises_try_except_any {A : Type} (body : M A) (h : exn → M A) :
  (∀ e, never_raises (h e)) → never_raises (try_except body any_Exception h).
Proof.
  intros Hh st e st'. unfold try_except, any_Exception.
  destruct (body st) as [[a|w|e'] st1] eqn:E; [done.. | apply Hh].
Qed.

Lemma never_raises_call (m : M unit) : never_raises m → never_raises (call m).
Proof.
  intros Hm st e st'. unfold call.
  destruct (m st) as [[a|w|e'] st1] eqn:E; [done.. |].
  by destruct (Hm st e' st1).
Qed.

(** *** Guarded blocks *)

Lemma guarded_of_quiet (mk : pyval) {A : Type} (m : M A) :
  quiet m → never_returns m → guarded mk m.
Proof.
  intros Hq Hr st. specialize (Hq st). specialize (Hr st).
  destruct (m st) as [[a|v|e] st1]; simpl in *; try done.
  by destruct (Hr v st1).
Qed.

Lemma guarded_bind (mk : pyval) {A B : Type} (m : M A) (k : A → M B) :
  guarded mk m → (∀ a, guarded mk (k a)) → guarded mk (m ≫= k).
Proof.
  intros Hm Hk st. unfold mbind, M_bind, bind.
  specialize (Hm st). destruct (m st) as [[a|v|e] st1]; try done.
  specialize (Hk a st1). destruct (k a st1) as [[b|v|e] st2].
  - by eapply quiet_rel_trans.
  - destruct Hk as [-> Hk]. split; [done|]. by eapply quiet_marked_rel.
  - by eapply quiet_rel_trans.
Qed.

(** What follows a step that never falls through does not matter. *)
Lemma guarded_bind_stop (mk : pyval) {A B : Type} (m : M A) (k : A → M B) :
  guarded mk m → never_falls_through m → guarded mk (m ≫= k).
Proof.
  intros Hm Hs st. unfold mbind, M_bind, bind.
  specialize (Hm st). specialize (Hs st).
  destruct (m st) as [[a|v|e] st1]; try done.
  by destruct (Hs a st1).
Qed.

Lemma guarded_try_except (mk : pyval) {A : Type} (body : M A)
    (f : exn → bool) (h : exn → M A) :
  guarded mk body → (∀ e, guarded mk (h e)) → guarded mk (try_except body f h).
Proof.
  intros Hb Hh st. unfold try_except.
  specialize (Hb st). destruct (body st) as [[a|v|e] st1]; try done.
  destruct (f e); [|done].
  specialize (Hh e st1). destruct (h e st1) as [[b|v|e'] st2].
  - by eapply quiet_rel_trans.
  - destruct Hh as [-> Hh]. split; [done|]. by eapply quiet_marked_rel.
  - by eapply quiet_rel_trans.
Qed.

(** The way every check of [check_weather] gives up: log, store the marker,
    return. *)
Lemma guarded_give_up (mk : pyval) {A : Type} (msg : string) (exc_info : bool) :
  guarded mk (logger_error msg exc_info;;
              data_setitem update_error_key mk;;
              @return_ A PyNone).
Proof.
  intros st. simpl. split; [done|]. split; [done|].
  exists [Log ERROR msg exc_info]. simpl. split.
  - by rewrite <- app_assoc.
  - by repeat constructor.
Qed.

(** *** The [try] block of [check_weather] *)

Lemma getitem_set (l : list pyval) (index : pyval) :
  getitem (PySet l) index = Err TypeError.
Proof. reflexivity. Qed.

Lemma never_returns_nested_value (observed : pyval) (name : string) :
  never_returns (Weathergov.nested_value observed name).
Proof.
  unfold Weathergov.nested_value.
  apply never_returns_bind; [|intros ?]; apply never_returns_lift.
Qed.

Lemma never_returns_wind_index_of (rt : runtime) (wind_deg : pyval) :
  never_returns (Weathergov.wind_index_of rt wind_deg).
Proof.
  unfold Weathergov.wind_index_of, Weathergov.round_quotient.
  repeat (apply never_returns_bind; [|intros ?]); apply never_returns_lift.
Qed.

Lemma never_returns_parse_timestamp (rt : runtime) (observed : pyval) :
  never_returns (Weathergov.parse_timestamp rt observed).
Proof.
  unfold Weathergov.parse_timestamp.
  apply never_returns_try_except; [|intros ?; apply never_returns_ret].
  repeat (apply never_returns_bind; [|intros ?]);
    first [apply never_returns_lift | apply never_returns_ret].
Qed.

Ltac guarded_step :=
  first
    [ apply guarded_give_up
    | apply guarded_of_quiet;
      [ first [ apply quiet_get_weather_data | apply quiet_nested_value
              | apply quiet_wind_index_of | apply quiet_parse_timestamp
              | apply quiet_get_weather_data_attr | apply quiet_lift
              | apply quiet_ret ]
      | first [ apply call_never_returns | apply never_returns_nested_value
              | apply never_returns_wind_index_of
              | apply never_returns_parse_timestamp
              | apply never_returns_lift | apply never_returns_ret
              | by intros ? ? ? ] ]
    | apply guarded_bind; [|intros ?] ].

(** With a [set] bound to [directions], the block stores nothing but the
    marker, and only when it returns early. *)
Lemma check_weather_try_guarded (rt : runtime) (self : Weathergov.instance)
    (l : list pyval) :
  guarded (Weathergov.marker self)
    (Weathergov.check_weather_try rt self (PySet l)).
Proof.
  unfold Weathergov.check_weather_try.
  guarded_step; [guarded_step|].
  guarded_step; [guarded_step|].
  guarded_step.
  { destruct (is_None a0); [apply guarded_give_up | guarded_step]. }
  guarded_step.
  { apply guarded_try_except; [guarded_step | intros ?; apply guarded_give_up]. }
  guarded_step; [guarded_step|].
  guarded_step; [guarded_step|].
  cbv zeta.
  guarded_step; [guarded_step|].
  guarded_step; [guarded_step|].
  guarded_step; [guarded_step|].
  apply guarded_bind_stop; [guarded_step|].
  intros st a' st'. by rewrite getitem_set.
Qed.

(** With a [set] bound to [directions], the block never reaches its end:
    line 183 raises on every index. *)
Lemma check_weather_try_stops (rt : runtime) (self : Weathergov.instance)
    (l : list pyval) :
  never_falls_through (Weathergov.check_weather_try rt self (PySet l)).
Proof.
  unfold Weathergov.check_weather_try.
  do 9 (apply never_falls_through_bind_r; intros ?).
  apply never_falls_through_bind_l.
  intros st a' st'. by rewrite getitem_set.
Qed.

Lemma cycle_rel_of_marked (mk : pyval) (st1 st2 st3 : state) (evs : list event) :
  data st2 = <[update_error_key := PyStr EmptyString]> (data st1) →
  trace st2 = trace st1 ++ evs →
  Forall (stores_only update_error_key) evs →
  marked_rel mk st2 st3 → cycle_rel mk st1 st3.
Proof.
  intros Hd Ht Hf [Hd' (evs' & Ht' & Hf')]. split.
  - by rewrite Hd', Hd, insert_insert_eq.
  - exists (evs ++ evs' ++ [Store update_error_key mk]). split.
    + by rewrite Ht', Ht, <- app_assoc.
    + apply Forall_app. split; [done|]. apply Forall_app. split.
      * eapply Forall_impl; [exact Hf'|]. by intros [].
      * by repeat constructor.
Qed.

(** The whole method, as the source has it: every cycle returns [None],
    leaves the marker in [update_error] and writes no other field. *)
Lemma check_weather_effect (rt : runtime) (self : Weathergov.instance)
    (st : state) :
  (Weathergov.check_weather rt self st).1 = Normal PyNone
  ∧ cycle_rel (Weathergov.marker self) st (Weathergov.check_weather rt self st).2.
Proof.
  unfold Weathergov.check_weather, Weathergov.check_weather_body, call.
  unfold mbind, M_bind, bind.
  destruct (negb _) eqn:Hunits; simpl.
  { split; [done|]. split; [done|]. eexists. split.
    - by rewrite <- app_assoc.
    - by repeat constructor. }
  destruct (Weathergov.location_code _) as [loc|]; simpl.
  2:{ split; [done|]. split; [by rewrite insert_insert_eq|]. eexists. split.
      - by rewrite <- !app_assoc.
      - by repeat constructor. }
  unfold try_except, any_Exception.
  match goal with |- context [Weathergov.check_weather_try rt self _ ?s] =>
    set (st2 := s) end.
  assert (Hg : guarded (Weathergov.marker self)
            (Weathergov.check_weather_try rt self Weathergov.directions))
    by apply check_weather_try_guarded.
  assert (Hs : never_falls_through
            (Weathergov.check_weather_try rt self Weathergov.directions))
    by apply check_weather_try_stops.
  specialize (Hg st2). specialize (Hs st2).
  assert (Hd2 : data st2 = <[update_error_key := PyStr EmptyString]> (data st))
    by (subst st2; simpl; by rewrite insert_insert_eq).
  assert (Ht2 : trace st2 = trace st
            ++ [Store update_error_key (PyStr EmptyString);
                Store update_error_key (PyStr EmptyString)])
    by (subst st2; simpl; by rewrite <- app_assoc).
  assert (Hf2 : Forall (stores_only update_error_key)
            [Store update_error_key (PyStr EmptyString);
             Store update_error_key (PyStr EmptyString)])
    by (by repeat constructor).
  destruct (Weathergov.check_weather_try rt self Weathergov.directions st2)
    as [[a|v|e] st3]; simpl.
  - by destruct (Hs a st3).
  - destruct Hg as [-> Hg]. split; [done|].
    by eapply cycle_rel_of_marked.
  - split; [done|].
    eapply cycle_rel_of_marked; [exact Hd2 | exact Ht2 | exact Hf2 |].
    eapply quiet_marked_rel; [exact Hg|].
    split; [done|]. eexists [_]. split.
    + simpl. by rewrite <- app_assoc.
    + by repeat constructor.
Qed.

Lemma events_since_app (st st' : state) (evs : list event) :
  trace st' = trace st ++ evs → events_since st st' = evs.
Proof. intros H. unfold events_since. by rewrite H, drop_app_length. Qed.

(** ** The fetcher *)

(** C7: [get_weather_data] returns [None], and raises nothing, when the
    request fails at the transport level, when the status is not 200, and
    when the body does not decode; on a 200 response whose body decodes it
    returns the decoded value. *)
Theorem get_weather_data_returns (rt : runtime) (url : string) (st : state) :
  let outcome := (WeathergovParser.get_weather_data rt url st).1 in
  (∀ e, requests_get rt url WeathergovParser.headers = Err e
        → outcome = Normal PyNone)
  ∧ (∀ r, requests_get rt url WeathergovParser.headers = Ok r
          → status_code r ≠ 200 → outcome = Normal PyNone)
  ∧ (∀ r e, requests_get rt url WeathergovParser.headers = Ok r
            → status_code r = 200 → json_loads rt (content r) = Err e
            → outcome = Normal PyNone)
  ∧ (∀ r v, requests_get rt url WeathergovParser.headers = Ok r
            → status_code r = 200 → json_loads rt (content r) = Ok v
            → outcome = Normal v).
Proof.
  unfold WeathergovParser.get_weather_data,
    WeathergovParser.get_weather_data_body, WeathergovParser.load_json,
    WeathergovParser.load_json_body, http_get, call, try_except.
  unfold mbind, M_bind, bind; simpl.
  split; [|split; [|split]].
  - intros e ->. reflexivity.
  - intros r -> Hs. simpl.
    apply Z.eqb_neq in Hs. by rewrite Hs.
  - intros r e -> Hs He. simpl. rewrite Hs. simpl. rewrite He. simpl.
    by destruct e.
  - intros r v -> Hs Hv. simpl. rewrite Hs. simpl. by rewrite Hv.
Qed.

Lemma get_weather_data_returns_witness :
  (WeathergovParser.get_weather_data Sample.offline "u" Sample.fresh).1
    = Normal PyNone
  ∧ (WeathergovParser.get_weather_data
       (Sample.serving 404 "Not Found" None) "u" Sample.fresh).1
    = Normal PyNone
  ∧ (WeathergovParser.get_weather_data
       (Sample.serving 200 "{oops" None) "u" Sample.fresh).1
    = Normal PyNone
  ∧ (WeathergovParser.get_weather_data
       (Sample.serving 200 "[1]" (Some (PyList [PyInt 1]))) "u" Sample.fresh).1
    = Normal (PyList [PyInt 1]).
Proof.
  split; [|split; [|split]].
  - destruct (get_weather_data_returns Sample.offline "u" Sample.fresh)
      as (H & _).
    by apply (H (OtherException "ConnectionError")).
  - destruct (get_weather_data_returns (Sample.serving 404 "Not Found" None)
                "u" Sample.fresh) as (_ & H & _).
    by apply (H {| status_code := 404; content := "Not Found" |}).
  - destruct (get_weather_data_returns (Sample.serving 200 "{oops" None)
                "u" Sample.fresh) as (_ & _ & H & _).
    by apply (H {| status_code := 200; content := "{oops" |} JSONDecodeError).
  - destruct (get_weather_data_returns
                (Sample.serving 200 "[1]" (Some (PyList [PyInt 1])))
                "u" Sample.fresh) as (_ & _ & _ & H).
    by apply (H {| status_code := 200; content := "[1]" |}).
Defined.

(** ** The normalizer: error handling *)

(** Whatever is bound to [directions], nothing gets past the enclosing
    [except Exception]. *)
Lemma check_weather_body_never_raises (rt : runtime)
    (self : Weathergov.instance) (d : pyval) :
  never_raises (Weathergov.check_weather_body rt self d).
Proof.
  unfold Weathergov.check_weather_body, Weathergov.check_weather_except,
    logger_error.
  repeat (apply never_raises_bind; [|intros ?]);
    repeat first
      [ apply never_raises_data_setitem
      | apply never_raises_try_except_any; intros ?
      | match goal with
        | |- never_raises (if ?b then _ else _) => destruct b
        | |- never_raises (match ?o with Some _ => _ | None => _ end) =>
            destruct o
        end
      | apply never_raises_bind; [|intros ?]
      | apply never_raises_emit
      | apply never_raises_return
      | apply never_raises_ret ].
Qed.

(** C4: for every runtime (every fetch result and every decoded value),
    configuration and state, [check_weather] returns and raises nothing;
    and whenever its [try] block raises, the handler logs the diagnostic
    with the traceback and stores the configured marker in
    [update_error]. *)
Theorem check_weather_never_raises (rt : runtime)
    (self : Weathergov.instance) (st : state) :
  (∃ v, (Weathergov.check_weather rt self st).1 = Normal v)
  ∧ match Weathergov.check_weather_try rt self Weathergov.directions st with
    | (Raise e, st1) =>
        try_except (Weathergov.check_weather_try rt self Weathergov.directions)
          any_Exception (Weathergov.check_weather_except self) st
        = (Normal tt,
           {| data := <[update_error_key := Weathergov.marker self]> (data st1);
              weather_data := weather_data st1;
              trace := trace st1
                ++ [Log ERROR ("Uncaught error occurred while checking weather. "
                               +:+ "Exception follows: ") true;
                    Store update_error_key (Weathergov.marker self)] |})
    | _ => True
    end.
Proof.
  split.
  - pose proof (check_weather_body_never_raises rt self Weathergov.directions st)
      as H.
    unfold Weathergov.check_weather, call.
    destruct (Weathergov.check_weather_body rt self Weathergov.directions st)
      as [[a|v|e] st1]; simpl; eauto.
    by destruct (H e st1).
  - unfold try_except, any_Exception.
    destruct (Weathergov.check_weather_try rt self Weathergov.directions st)
      as [[a|v|e] st1]; [done.. |].
    unfold Weathergov.check_weather_except, logger_error, mbind, M_bind, bind.
    simpl. unfold data_setitem. simpl. by rewrite <- app_assoc.
Qed.

(** C5: when [units] is neither "imperial" nor "metric", the cycle logs the
    error, stores the configured marker in [update_error], returns, and sends
    no request. *)
Theorem invalid_units_set_marker_without_fetch (rt : runtime)
    (self : Weathergov.instance) (st : state) :
  Weathergov.units (Weathergov.config self) ≠ "imperial" →
  Weathergov.units (Weathergov.config self) ≠ "metric" →
  Claims.gave_up_before_fetch rt self st [] Claims.units_message.
Proof.
  intros Hi Hm.
  apply String.eqb_neq in Hi. apply String.eqb_neq in Hm.
  unfold Claims.gave_up_before_fetch, Claims.units_message.
  unfold Weathergov.check_weather, Weathergov.check_weather_body, call.
  unfold mbind, M_bind, bind. rewrite Hi, Hm. simpl.
  match goal with |- context [events_since st ?s] =>
    assert (Hev : events_since st s
            = [Log ERROR ("Units must be one of (imperial, metric)! See the "
                          +:+ "documentation for more information.") false;
               Store update_error_key (Weathergov.marker self)])
  end.
  { apply events_since_app. simpl. by rewrite <- app_assoc. }
  split; [done|]. split; [done|]. split; [exact Hev|].
  rewrite Hev. intros (url & hs & Hin).
  apply list_elem_of_In in Hin. simpl in Hin.
  by destruct Hin as [?|[?|[]]].
Qed.

Lemma invalid_units_set_marker_without_fetch_witness :
  "kelvin" ≠ "imperial" ∧ "kelvin" ≠ "metric"
  ∧ Claims.gave_up_before_fetch
      (Sample.answering (Sample.observation Sample.timestamp (PyInt 0) PyNone))
      (Sample.instance_of (Sample.settings_with "kelvin" "!"))
      Sample.filled [] Claims.units_message.
Proof.
  split; [discriminate|]. split; [discriminate|].
  apply (invalid_units_set_marker_without_fetch
           (Sample.answering (Sample.observation Sample.timestamp (PyInt 0) PyNone))
           (Sample.instance_of (Sample.settings_with "kelvin" "!"))
           Sample.filled); discriminate.
Defined.

(** ** The normalizer: the output record *)

(** C10: a second cycle with the same runtime and configuration on the
    record the first one left gives the same record, and the record a cycle
    leaves does not depend on the parser's attribute or on the trace. *)
Theorem check_weather_idempotent (rt : runtime) (self : Weathergov.instance)
    (st : state) :
  Claims.idempotent_on_record rt self st.
Proof.
  unfold Claims.idempotent_on_record. cbv zeta.
  destruct (check_weather_effect rt self st) as [_ [Hd _]].
  split.
  - destruct (check_weather_effect rt self
                (Weathergov.check_weather rt self st).2) as [_ [Hd' _]].
    by rewrite Hd', Hd, insert_insert_eq.
  - intros wd tr.
    destruct (check_weather_effect rt self
                {| data := data st; weather_data := wd; trace := tr |})
      as [_ [Hd' _]].
    by rewrite Hd', Hd.
Qed.

(** C2, for a non-empty marker: when the configured marker is a non-empty
    string, after every cycle [update_error] is non-empty exactly when no
    other field was written during the cycle, and a cycle that ends with the
    error shown leaves every other field as it was. *)
Theorem update_error_marks_untouched_record (rt : runtime)
    (self : Weathergov.instance) (st : state) :
  Weathergov.update_error (Weathergov.config self) ≠ EmptyString →
  Claims.update_error_invariant rt self st.
Proof.
  intros Hmk.
  unfold Claims.update_error_invariant, error_iff_nothing_populated,
    failure_keeps_fields. cbv zeta.
  destruct (check_weather_effect rt self st) as [_ [Hd (evs & Ht & Hf)]].
  rewrite (events_since_app _ _ _ Ht).
  assert (Hshown : error_shown (data (Weathergov.check_weather rt self st).2)).
  { exists (Weathergov.update_error (Weathergov.config self)). split; [|done].
    rewrite Hd. apply lookup_insert_eq. }
  split.
  - split; [|done]. intros _ key Hkey (v & Hin).
    rewrite Forall_forall in Hf. apply Hf in Hin. simpl in Hin. done.
  - intros _ key Hkey. rewrite Hd. by apply lookup_insert_ne.
Qed.

Lemma update_error_marks_untouched_record_witness :
  "!" ≠ EmptyString
  ∧ Claims.update_error_invariant
      (Sample.answering (Sample.observation Sample.timestamp (PyInt 0) PyNone))
      (Sample.instance_of (Sample.settings_with "metric" "!"))
      Sample.filled.
Proof.
  split; [discriminate|].
  apply (update_error_marks_untouched_record
           (Sample.answering (Sample.observation Sample.timestamp (PyInt 0) PyNone))
           (Sample.instance_of (Sample.settings_with "metric" "!"))
           Sample.filled).
  discriminate.
Defined.

(** C2 does not hold when the configured marker is the empty string:
    with an invalid [units] the cycle stores the empty marker, so the error
    field is empty although no other field was written. *)
Lemma update_error_invariant_fails_for_empty_marker :
  ¬ Claims.update_error_invariant Sample.offline
      (Sample.instance_of (Sample.settings_with "kelvin" EmptyString))
      Sample.fresh.
Proof.
  intros [[_ Hshown] _].
  destruct Hshown as (s & Hs & Hne).
  - intros key Hkey (v & Hin). vm_compute in Hin.
    apply list_elem_of_In in Hin. simpl in Hin.
    destruct Hin as [Hin|[Hin|[]]]; [discriminate|].
    inversion Hin. subst. done.
  - vm_compute in Hs. by inversion Hs; subst.
Qed.

(** ** The normalizer: defects *)

(** Line 182 maps every int heading to an index from 0 to 8, each of which
    the nine-entry list of labels holds. *)
Lemma wind_index_within_table (rt : runtime) (d : Z) (st : state) :
  ∃ i label,
    Weathergov.wind_index_of rt (PyInt d) st = (Normal (PyInt i), st)
    ∧ 0 ≤ i ≤ 8
    ∧ getitem Sample.directions_list (PyInt i) = Ok (PyStr label).
Proof.
  assert (Hall : forallb Sample.sector_in_table
                   (map Z.of_nat (seq 0 360)) = true) by (vm_compute; reflexivity).
  rewrite forallb_forall in Hall.
  assert (Hr : 0 ≤ d mod 360 < 360) by (apply Z.mod_pos_bound; lia).
  specialize (Hall (d mod 360)).
  assert (Hin : In (d mod 360) (map Z.of_nat (seq 0 360))).
  { apply in_map_iff. exists (Z.to_nat (d mod 360)). split; [lia|].
    apply in_seq. lia. }
  apply Hall in Hin. unfold Sample.sector_in_table in Hin.
  unfold Weathergov.wind_index_of, Weathergov.round_quotient, mbind, M_bind,
    bind, lift. cbn [mod_ as_number arith Z.eqb].
  destruct (truediv (PyInt (d mod 360)) (PyInt 45)) as [q|]; [|done].
  unfold rbind in Hin. destruct (round q) as [[| |i| | | | | |]|]; try done.
  destruct (getitem Sample.directions_list (PyInt i)) as [[| | | |label| | | |]|]
    eqn:Hg; try (by rewrite andb_false_r in Hin).
  exists i, label. split; [done|]. split; [lia|done].
Qed.

(** C1, at the failing inputs: the object bound to [directions] is a set,
    which no index subscripts; with headings 0, 45 and 360 the cycle stores
    no [wind_direction] and ends with the marker in [update_error]. With the
    nine labels in a list the same cycles store "N", "NE" and "N". *)
Theorem directions_set_not_subscriptable :
  (∀ index, getitem Weathergov.directions index = Err TypeError)
  ∧ Forall
      (λ d,
         let st := Sample.cycle_on "metric"
                     (Sample.observation Sample.timestamp (PyInt d) PyNone)
                     Sample.fresh in
         data st !! "wind_direction" = None
         ∧ data st !! "update_error" = Some (PyStr "!"))
      [0; 45; 360]
  ∧ map
      (λ d,
         data (Sample.cycle_with_list_on "metric"
                 (Sample.observation Sample.timestamp (PyInt d) PyNone)
                 Sample.fresh) !! "wind_direction")
      [0; 45; 360]
    = [Some (PyStr "N"); Some (PyStr "NE"); Some (PyStr "N")].
Proof.
  split; [done|]. split.
  - repeat constructor; vm_compute; reflexivity.
  - vm_compute. reflexivity.
Qed.

(** C3, at the failing input: the failed parse itself is swallowed (the
    step always falls through and changes nothing), but a cycle on an
    observation without [timestamp] stores no field and ends with the marker
    in [update_error]. With the list bound to [directions] it stores
    [text_description], then fails on the unbound [observation_time] and
    ends with the marker as well. *)
Theorem missing_timestamp_fails_cycle :
  (∀ rt observed st,
     ∃ o, Weathergov.parse_timestamp rt observed st = (Normal o, st))
  ∧ (let st := Sample.cycle_on "metric"
                 (Sample.observation [] (PyInt 0) PyNone) Sample.fresh in
     data st !! "observation_time" = None
     ∧ data st !! "text_description" = None
     ∧ data st !! "update_error" = Some (PyStr "!"))
  ∧ (let st := Sample.cycle_with_list_on "metric"
                 (Sample.observation [] (PyInt 0) PyNone) Sample.fresh in
     data st !! "text_description" = Some (PyStr "Cloudy")
     ∧ data st !! "observation_time" = None
     ∧ data st !! "current_temp" = None
     ∧ data st !! "update_error" = Some (PyStr "!"))
  ∧ (let st := Sample.cycle_with_list_on "metric"
                 (Sample.observation [("timestamp", PyStr "yesterday")]
                    (PyInt 0) PyNone) Sample.fresh in
     data st !! "observation_time" = None
     ∧ data st !! "update_error" = Some (PyStr "!")).
Proof.
  split; [|by vm_compute].
  intros rt observed st.
  unfold Weathergov.parse_timestamp, try_except, any_Exception, mbind,
    M_bind, bind, lift.
  destruct (get observed "timestamp" (PyStr EmptyString)) as [t|e]; simpl;
    [|by eexists].
  destruct (fromisoformat rt t) as [d|e]; simpl; by eexists.
Qed.

(** C6, at the failing input: with the configuration of the usage example
    ([station_code] given, [units] valid), [init] builds the URL of station
    KNYC, yet every cycle clears the error field, logs that a
    [location_code] is required, stores the marker and sends no request;
    and without a [station_code] it is [init] that raises. *)
Theorem station_code_does_not_pass_validation (rt : runtime) (st : state) :
  ∃ self,
    Weathergov.init rt Sample.docstring_settings = Ok self
    ∧ Weathergov.forecast_url self
      = "https://api.weather.gov/stations/KNYC/observations/latest?require_qc=false"
    ∧ Claims.gave_up_before_fetch rt self st
        [Store update_error_key (PyStr EmptyString)]
        Claims.location_code_message
    ∧ Weathergov.init rt
        {| Weathergov.station_code := None;
           Weathergov.location_code := Some (PyStr "KNYC");
           Weathergov.units := "metric";
           Weathergov.update_error := "!" |}
      = Err KeyError.
Proof.
  eexists. split; [reflexivity|]. split; [reflexivity|]. split; [|reflexivity].
  unfold Claims.gave_up_before_fetch, Claims.location_code_message.
  unfold Weathergov.check_weather, Weathergov.check_weather_body, call.
  unfold mbind, M_bind, bind. simpl.
  match goal with |- context [events_since st ?s] =>
    assert (Hev : events_since st s
            = [Store update_error_key (PyStr EmptyString);
               Log ERROR ("A location_code is required to check weather.gov. See the "
                          +:+ "documentation for more information.") false;
               Store update_error_key
                 (Weathergov.marker
                    {| Weathergov.config :=
                         {| Weathergov.station_code := Some "KNYC";
                            Weathergov.location_code := None;
                            Weathergov.units := "imperial";
                            Weathergov.update_error :=
                              Weathergov.update_error Sample.docstring_settings |};
                       Weathergov.forecast_url :=
                         Weathergov.url_template_format "KNYC" |})])
  end.
  { apply events_since_app. simpl. by rewrite <- !app_assoc. }
  split; [done|]. split; [by rewrite insert_insert_eq|]. split; [exact Hev|].
  rewrite Hev. intros (url & hs & Hin).
  apply list_elem_of_In in Hin. simpl in Hin.
  by destruct Hin as [?|[?|[?|[]]]].
Qed.

(** C8, at the failing input: the conversions themselves give 68.0 for 20
    degrees Celsius, printed "68.0", and 30 for 101320 Pa; but the imperial
    cycle on that observation stores neither [current_temp] nor [pressure]
    and ends with the marker in [update_error]. With the list bound to
    [directions] it stores "68.0" and "30". *)
Theorem imperial_values_never_stored :
  Weathergov.toFahrenheit (PyInt 20) Sample.fresh
    = (Normal (PyFloat (float_of_decimal 68 0)), Sample.fresh)
  ∧ str Sample.offline (PyFloat (float_of_decimal 68 0)) = "68.0"
  ∧ Weathergov.round_quotient (PyInt 101320) (PyInt 3386) Sample.fresh
    = (Normal (PyInt 30), Sample.fresh)
  ∧ (let st := Sample.cycle_on "imperial"
                 (Sample.observation Sample.timestamp (PyInt 0) PyNone)
                 Sample.fresh in
     data st !! "current_temp" = None
     ∧ data st !! "pressure" = None
     ∧ data st !! "update_error" = Some (PyStr "!"))
  ∧ (let st := Sample.cycle_with_list_on "imperial"
                 (Sample.observation Sample.timestamp (PyInt 0) PyNone)
                 Sample.fresh in
     data st !! "current_temp" = Some (PyStr "68.0")
     ∧ data st !! "pressure" = Some (PyStr "30")
     ∧ data st !! "update_error" = Some (PyStr EmptyString)).
Proof. by vm_compute. Qed.

(** C9, at the failing inputs: on a record whose [wind_gust] is "31" from
    an earlier cycle, a metric cycle leaves "31" there whether the gust of
    the observation is null or 20, and ends with the marker in
    [update_error]. With the list bound to [directions] the cycles store the
    empty string and "20". *)
Theorem wind_gust_never_stored :
  (let st := Sample.cycle_on "metric"
               (Sample.observation Sample.timestamp (PyInt 0) PyNone)
               Sample.filled in
   data st !! "wind_gust" = Some (PyStr "31")
   ∧ data st !! "update_error" = Some (PyStr "!"))
  ∧ (let st := Sample.cycle_on "metric"
                 (Sample.observation Sample.timestamp (PyInt 0) (PyInt 20))
                 Sample.filled in
     data st !! "wind_gust" = Some (PyStr "31")
     ∧ data st !! "update_error" = Some (PyStr "!"))
  ∧ data (Sample.cycle_with_list_on "metric"
            (Sample.observation Sample.timestamp (PyInt 0) PyNone)
            Sample.filled) !! "wind_gust" = Some (PyStr EmptyString)
  ∧ data (Sample.cycle_with_list_on "metric"
            (Sample.observation Sample.timestamp (PyInt 0) (PyInt 20))
            Sample.filled) !! "wind_gust" = Some (PyStr "20").
Proof. by vm_compute. Qed.

(** ** The connectivity gate *)

(** A cycle that the gate lets through is the method itself; one that it
    holds back returns [None] and touches nothing. *)
Lemma require_gate (rt : runtime) (self : Weathergov.instance) (st : state) :
  Weathergov.require true (Weathergov.check_weather rt self) st
    = Weathergov.check_weather rt self st
  ∧ Weathergov.require false (Weathergov.check_weather rt self) st
    = (Normal PyNone, st).
Proof. by split. Qed.

(** ** More on the fetcher *)

Import Ending.

Lemma requests_in_app (evs1 evs2 : list event) :
  requests_in (evs1 ++ evs2) = requests_in evs1 ++ requests_in evs2.
Proof. unfold requests_in. apply flat_map_app. Qed.

(** What a call of [get_weather_data] does, for a runtime and a URL: the
    value and the events are the same from every state. *)
Lemma get_weather_data_from_any_state (rt : runtime) (url : string) :
  ∃ v evs,
    (∀ st, WeathergovParser.get_weather_data rt url st
           = (Normal v, after_fetch st v evs))
    ∧ requests_in evs = [(url, WeathergovParser.headers)]
    ∧ Forall no_store evs.
Proof.
  unfold WeathergovParser.get_weather_data,
    WeathergovParser.get_weather_data_body, WeathergovParser.load_json,
    WeathergovParser.load_json_body, http_get, call, try_except, after_fetch.
  unfold mbind, M_bind, bind; simpl.
  destruct (requests_get rt url WeathergovParser.headers) as [r|e]; simpl.
  2:{ eexists _, _. split; [|split].
      - intros st. rewrite <- !app_assoc. simpl. reflexivity.
      - reflexivity.
      - by repeat constructor. }
  destruct (status_code r =? 200); simpl.
  2:{ eexists _, _. split; [|split].
      - intros st. rewrite <- !app_assoc. simpl. reflexivity.
      - reflexivity.
      - by repeat constructor. }
  destruct (json_loads rt (content r)) as [v|e]; simpl.
  { eexists _, _. split; [|split].
    - intros st. rewrite <- !app_assoc. simpl. reflexivity.
    - reflexivity.
    - by repeat constructor. }
  destruct e; simpl;
    (eexists _, _; split; [|split];
     [ intros st; rewrite <- !app_assoc; simpl; reflexivity
     | reflexivity
     | by repeat constructor ]).
Qed.

(** X1: every call of [get_weather_data] returns normally, leaves the
    output record as it was, leaves the value it returns in the parser's
    [weather_data] attribute, and sends exactly one request, to the given
    URL with the two fixed headers. *)
Theorem get_weather_data_one_request (rt : runtime) (url : string)
    (st : state) :
  ∃ v,
    (WeathergovParser.get_weather_data rt url st).1 = Normal v
    ∧ weather_data (WeathergovParser.get_weather_data rt url st).2 = v
    ∧ data (WeathergovParser.get_weather_data rt url st).2 = data st
    ∧ requests_in
        (events_since st (WeathergovParser.get_weather_data rt url st).2)
      = [(url, [("Accept", "application/geo+json");
                ("User-Agent", "(i3pystatus.weather.Weathergov)")])].
Proof.
  destruct (get_weather_data_from_any_state rt url) as (v & evs & H & Hr & _).
  exists v. rewrite (H st). simpl. repeat split.
  by rewrite (events_since_app st (after_fetch st v evs) evs).
Qed.

(** X2: [load_json] returns what [json.loads] decodes, returns [None] when
    it raises [JSONDecodeError], and lets every other exception through to
    its caller; in no case does it touch the record or the parser's
    attribute. *)
Theorem load_json_outcomes (rt : runtime) (json_input : string) (st : state) :
  (∀ v, json_loads rt json_input = Ok v
        → (WeathergovParser.load_json rt json_input st).1 = Normal v)
  ∧ (json_loads rt json_input = Err JSONDecodeError
     → (WeathergovParser.load_json rt json_input st).1 = Normal PyNone)
  ∧ (∀ e, json_loads rt json_input = Err e → e ≠ JSONDecodeError
          → (WeathergovParser.load_json rt json_input st).1 = Raise e)
  ∧ data (WeathergovParser.load_json rt json_input st).2 = data st
  ∧ weather_data (WeathergovParser.load_json rt json_input st).2
    = weather_data st.
Proof.
  unfold WeathergovParser.load_json, WeathergovParser.load_json_body, call,
    try_except.
  unfold mbind, M_bind, bind; simpl.
  destruct (json_loads rt json_input) as [v|e]; simpl.
  - split; [by intros ? [= ->]|]. by repeat split.
  - split; [done|]. split; [by intros [= ->]|]. split.
    + intros e' [= ->] Hne. by destruct e'.
    + by destruct e.
Qed.

Lemma load_json_outcomes_witness :
  (WeathergovParser.load_json
     (Sample.serving 200 "[1]" (Some (PyList [PyInt 1]))) "[1]" Sample.fresh).1
    = Normal (PyList [PyInt 1])
  ∧ (WeathergovParser.load_json Sample.offline "{oops" Sample.fresh).1
    = Normal PyNone
  ∧ (WeathergovParser.load_json
       {| requests_get := requests_get Sample.offline;
          json_loads := λ _, Err (OtherException "UnicodeDecodeError");
          isoformat := isoformat Sample.offline;
          str_format := str_format Sample.offline;
          object_str := object_str Sample.offline |} "\xff" Sample.fresh).1
    = Raise (OtherException "UnicodeDecodeError").
Proof.
  split; [|split].
  - destruct (load_json_outcomes
                (Sample.serving 200 "[1]" (Some (PyList [PyInt 1])))
                "[1]" Sample.fresh) as (H & _).
    by apply H.
  - destruct (load_json_outcomes Sample.offline "{oops" Sample.fresh)
      as (_ & H & _).
    by apply H.
  - match goal with |- (WeathergovParser.load_json ?rt ?s ?st).1 = _ =>
      destruct (load_json_outcomes rt s st) as (_ & _ & H & _)
    end.
    by apply H.
Defined.

(** ** [init] *)



(** X3: [init] succeeds exactly when a [station_code] was passed; without
    one, formatting the URL raises [KeyError], whatever the other settings
    are. *)
Theorem init_needs_station_code (rt : runtime) (s : Weathergov.settings) :
  (Weathergov.station_code s = None ↔ Weathergov.init rt s = Err KeyError)
  ∧ (Weathergov.station_code s ≠ None ↔ ∃ self, Weathergov.init rt s = Ok self).
Proof.
  unfold Weathergov.init. destruct (Weathergov.station_code s) as [station|].
  - split; split; try done. by eexists.
  - split; split; try done. by intros [? ?].
Qed.

(** X4: on success [init] keeps [station_code], [units] and [update_error],
    turns a given [location_code] into a string, and running it again on the
    instance's settings gives the same instance. *)
Theorem init_idempotent (rt : runtime) (s : Weathergov.settings)
    (self : Weathergov.instance) :
  Weathergov.init rt s = Ok self →
  Weathergov.init rt (Weathergov.config self) = Ok self
  ∧ Weathergov.station_code (Weathergov.config self) = Weathergov.station_code s
  ∧ Weathergov.units (Weathergov.config self) = Weathergov.units s
  ∧ Weathergov.update_error (Weathergov.config self) = Weathergov.update_error s
  ∧ match Weathergov.location_code s with
    | Some v => Weathergov.location_code (Weathergov.config self)
                = Some (PyStr (str rt v))
    | None => Weathergov.location_code (Weathergov.config self) = None
    end.
Proof.
  unfold Weathergov.init.
  destruct (Weathergov.station_code s) as [station|] eqn:Hs; [|done].
  intros [= <-]. simpl.
  destruct (Weathergov.location_code s); by repeat split.
Qed.

Lemma init_idempotent_witness :
  Weathergov.init Sample.offline
    {| Weathergov.station_code := Some "KNYC";
       Weathergov.location_code := Some (PyInt 10001);
       Weathergov.units := "metric";
       Weathergov.update_error := "!" |}
  = Ok {| Weathergov.config :=
            {| Weathergov.station_code := Some "KNYC";
               Weathergov.location_code := Some (PyStr "10001");
               Weathergov.units := "metric";
               Weathergov.update_error := "!" |};
          Weathergov.forecast_url := Weathergov.url_template_format "KNYC" |}
  ∧ Weathergov.init Sample.offline
      {| Weathergov.station_code := Some "KNYC";
         Weathergov.location_code := Some (PyStr "10001");
         Weathergov.units := "metric";
         Weathergov.update_error := "!" |}
    = Ok {| Weathergov.config :=
              {| Weathergov.station_code := Some "KNYC";
                 Weathergov.location_code := Some (PyStr "10001");
                 Weathergov.units := "metric";
                 Weathergov.update_error := "!" |};
            Weathergov.forecast_url := Weathergov.url_template_format "KNYC" |}.
Proof.
  assert (H : Weathergov.init Sample.offline
                {| Weathergov.station_code := Some "KNYC";
                   Weathergov.location_code := Some (PyInt 10001);
                   Weathergov.units := "metric";
                   Weathergov.update_error := "!" |}
              = Ok {| Weathergov.config :=
                        {| Weathergov.station_code := Some "KNYC";
                           Weathergov.location_code := Some (PyStr "10001");
                           Weathergov.units := "metric";
                           Weathergov.update_error := "!" |};
                      Weathergov.forecast_url :=
                        Weathergov.url_template_format "KNYC" |})
    by (vm_compute; reflexivity).
  split; [exact H|].
  exact (proj1 (init_idempotent Sample.offline _ _ H)).
Defined.



(** ** Steps without effects *)

Lemma pure_step_lift {A : Type} (r : result A) : pure_step (lift r).
Proof. intros st. unfold lift. destruct r; [left | right]; by eexists. Qed.

Lemma pure_step_ret {A : Type} (a : A) : pure_step (ret a).
Proof. intros st. left. by eexists. Qed.

Lemma pure_step_bind {A B : Type} (m : M A) (k : A → M B) :
  pure_step m → (∀ a, pure_step (k a)) → pure_step (m ≫= k).
Proof.
  intros Hm Hk st. unfold mbind, M_bind, bind.
  destruct (Hm st) as [[a ->]|[e ->]]; [apply Hk | right; by eexists].
Qed.

Lemma pure_step_try_except {A : Type} (body : M A) (f : exn → bool)
    (h : exn → M A) :
  pure_step body → (∀ e, pure_step (h e)) → pure_step (try_except body f h).
Proof.
  intros Hb Hh st. unfold try_except.
  destruct (Hb st) as [[a ->]|[e ->]]; [left; by eexists|].
  destruct (f e); [apply Hh | right; by eexists].
Qed.

Lemma pure_step_nested_value (observed : pyval) (name : string) :
  pure_step (Weathergov.nested_value observed name).
Proof.
  unfold Weathergov.nested_value.
  apply pure_step_bind; [|intros ?]; apply pure_step_lift.
Qed.

Lemma pure_step_wind_index_of (rt : runtime) (wind_deg : pyval) :
  pure_step (Weathergov.wind_index_of rt wind_deg).
Proof.
  unfold Weathergov.wind_index_of, Weathergov.round_quotient.
  repeat (apply pure_step_bind; [|intros ?]); apply pure_step_lift.
Qed.

Lemma pure_step_parse_timestamp (rt : runtime) (observed : pyval) :
  pure_step (Weathergov.parse_timestamp rt observed).
Proof.
  unfold Weathergov.parse_timestamp.
  apply pure_step_try_except; [|intros ?; apply pure_step_ret].
  repeat (apply pure_step_bind; [|intros ?]);
    first [apply pure_step_lift | apply pure_step_ret].
Qed.

Lemma fails_purely_bind {A B : Type} (m : M A) (k : A → M B) :
  pure_step m → (∀ a, fails_purely (k a)) → fails_purely (m ≫= k).
Proof.
  intros Hm Hk st. unfold mbind, M_bind, bind.
  destruct (Hm st) as [[a ->]|[e ->]]; [apply Hk | by eexists].
Qed.

Lemma fails_purely_bind_l {A B : Type} (m : M A) (k : A → M B) :
  fails_purely m → fails_purely (m ≫= k).
Proof.
  intros Hm st. unfold mbind, M_bind, bind.
  destruct (Hm st) as [e ->]. by eexists.
Qed.

(** ** The ways a valid cycle ends *)

Lemma bind_run {A B : Type} (m : M A) (k : A → M B) (st st' : state) (a : A) :
  m st = (Normal a, st') → (m ≫= k) st = k a st'.
Proof. intros H. unfold mbind, M_bind, bind. by rewrite H. Qed.

Lemma bind_run_return {A B : Type} (m : M A) (k : A → M B) (st st' : state)
    (v : pyval) :
  m st = (Return v, st') → (m ≫= k) st = (Return v, st').
Proof. intros H. unfold mbind, M_bind, bind. by rewrite H. Qed.

Lemma bind_run_raise {A B : Type} (m : M A) (k : A → M B) (st st' : state)
    (e : exn) :
  m st = (Raise e, st') → (m ≫= k) st = (Raise e, st').
Proof. intros H. unfold mbind, M_bind, bind. by rewrite H. Qed.

Ltac close_ending :=
  eexists; split;
  [ unfold after_fetch; simpl; unfold data_setitem; simpl;
    rewrite <- ?app_assoc; reflexivity
  | first [by left | by right] ].

(** The [try] block with its handler, after a fetch that leaves [v]: the
    state is that of the fetch, then the diagnostic for [v], then the
    marker. *)
Lemma try_block_ending (rt : runtime) (self : Weathergov.instance)
    (v : pyval) (evs : list event) (st : state) :
  (∀ st0, WeathergovParser.get_weather_data rt (Weathergov.forecast_url self) st0
          = (Normal v, after_fetch st0 v evs)) →
  ∃ o,
    try_except (Weathergov.check_weather_try rt self Weathergov.directions)
      any_Exception (Weathergov.check_weather_except self) st
    = (o, {| data := <[update_error_key := Weathergov.marker self]> (data st);
             weather_data := v;
             trace := trace st ++ evs
                      ++ [diagnostic v;
                          Store update_error_key (Weathergov.marker self)] |})
    ∧ (o = Normal tt ∨ o = Return PyNone).
Proof.
  intros Hfetch. unfold try_except, Weathergov.check_weather_try.
  erewrite bind_run; [|apply Hfetch]. cbv beta.
  erewrite bind_run; [|reflexivity]. cbv beta. simpl weather_data.
  unfold diagnostic. destruct (is_None v) eqn:Hnone.
  { erewrite bind_run_return; [|reflexivity]. close_ending. }
  erewrite bind_run; [|reflexivity]. cbv beta.
  destruct (getitem v (PyStr "properties")) as [observed|e] eqn:Hprop.
  2:{ destruct e;
        try (erewrite bind_run_raise; [|reflexivity];
             unfold any_Exception, Weathergov.check_weather_except,
               logger_error, mbind, M_bind, bind; close_ending).
      erewrite bind_run_return; [|reflexivity]. close_ending. }
  erewrite bind_run; [|reflexivity]. cbv beta zeta.
  match goal with |- context [mbind ?k ?m (after_fetch st v evs)] =>
    assert (Hf : fails_purely (mbind k m))
  end.
  { do 5 (apply fails_purely_bind;
          [ first [ apply pure_step_parse_timestamp
                  | apply pure_step_nested_value
                  | apply pure_step_wind_index_of ]
          | intros ? ]).
    apply fails_purely_bind_l. intros st0. by eexists. }
  destruct (Hf (after_fetch st v evs)) as [e He]. rewrite He.
  unfold any_Exception, Weathergov.check_weather_except, logger_error,
    mbind, M_bind, bind. close_ending.
Qed.

(** The whole cycle with a valid configuration. *)
Lemma valid_cycle_shape (rt : runtime) (self : Weathergov.instance)
    (st : state) :
  valid self →
  ∃ v evs,
    (∀ st0, WeathergovParser.get_weather_data rt (Weathergov.forecast_url self) st0
            = (Normal v, after_fetch st0 v evs))
    ∧ requests_in evs
      = [(Weathergov.forecast_url self, WeathergovParser.headers)]
    ∧ Forall no_store evs
    ∧ Weathergov.check_weather rt self st
      = (Normal PyNone,
         {| data := <[update_error_key := Weathergov.marker self]> (data st);
            weather_data := v;
            trace := trace st
              ++ [Store update_error_key (PyStr EmptyString);
                  Store update_error_key (PyStr EmptyString)]
              ++ evs
              ++ [diagnostic v;
                  Store update_error_key (Weathergov.marker self)] |}).
Proof.
  intros [Hunits Hloc].
  destruct (get_weather_data_from_any_state rt (Weathergov.forecast_url self))
    as (v & evs & Hfetch & Hreq & Hns).
  exists v, evs. split; [exact Hfetch|]. split; [exact Hreq|].
  split; [exact Hns|].
  assert (Hu : negb (String.eqb (Weathergov.units (Weathergov.config self)) "imperial"
                     || String.eqb (Weathergov.units (Weathergov.config self)) "metric")
               = false).
  { destruct Hunits as [-> | ->]; reflexivity. }
  unfold Weathergov.check_weather, Weathergov.check_weather_body, call.
  rewrite Hu.
  destruct (Weathergov.location_code (Weathergov.config self)) as [loc|];
    [|done].
  unfold mbind, M_bind, bind. simpl.
  match goal with |- context [try_except _ _ _ ?s] =>
    destruct (try_block_ending rt self v evs s Hfetch) as (o & -> & Ho)
  end.
  unfold update_error_key.
  destruct Ho as [-> | ->]; simpl;
    by rewrite ?insert_insert_eq, <- ?app_assoc.
Qed.

(** X6: with valid [units] and no [location_code], every cycle clears the
    error field, logs that a [location_code] is required, stores the marker,
    returns [None] and sends no request. *)
Theorem missing_location_code_gives_up (rt : runtime)
    (self : Weathergov.instance) (st : state) :
  (Weathergov.units (Weathergov.config self) = "imperial"
   ∨ Weathergov.units (Weathergov.config self) = "metric") →
  Weathergov.location_code (Weathergov.config self) = None →
  Claims.gave_up_before_fetch rt self st
    [Store update_error_key (PyStr EmptyString)] Claims.location_code_message.
Proof.
  intros Hunits Hloc.
  assert (Hu : negb (String.eqb (Weathergov.units (Weathergov.config self)) "imperial"
                     || String.eqb (Weathergov.units (Weathergov.config self)) "metric")
               = false).
  { destruct Hunits as [-> | ->]; reflexivity. }
  unfold Claims.gave_up_before_fetch, Claims.location_code_message.
  unfold Weathergov.check_weather, Weathergov.check_weather_body, call.
  rewrite Hu, Hloc. unfold mbind, M_bind, bind. simpl.
  match goal with |- context [events_since st ?s] =>
    assert (Hev : events_since st s
            = [Store update_error_key (PyStr EmptyString);
               Log ERROR ("A location_code is required to check weather.gov. See the "
                          +:+ "documentation for more information.") false;
               Store update_error_key (Weathergov.marker self)])
  end.
  { apply events_since_app. simpl. by rewrite <- !app_assoc. }
  split; [done|]. split; [by rewrite insert_insert_eq|]. split; [exact Hev|].
  rewrite Hev. intros (url & hs & Hin).
  apply list_elem_of_In in Hin. simpl in Hin.
  by destruct Hin as [?|[?|[?|[]]]].
Qed.

Lemma missing_location_code_gives_up_witness :
  Claims.gave_up_before_fetch
    (Sample.answering (Sample.observation Sample.timestamp (PyInt 0) PyNone))
    {| Weathergov.config :=
         {| Weathergov.station_code := Some "KNYC";
            Weathergov.location_code := None;
            Weathergov.units := "metric";
            Weathergov.update_error := "!" |};
       Weathergov.forecast_url := Weathergov.url_template_format "KNYC" |}
    Sample.filled
    [Store update_error_key (PyStr EmptyString)] Claims.location_code_message.
Proof.
  apply missing_location_code_gives_up; [by right | reflexivity].
Defined.

(** X7: with valid [units] and a [location_code], every cycle sends exactly
    one request, to the URL that [init] built, with the two fixed headers:
    no retry, whatever the server answers. *)
Theorem valid_cycle_sends_one_request (rt : runtime)
    (self : Weathergov.instance) (st : state) :
  valid self →
  requests_in (events_since st (Weathergov.check_weather rt self st).2)
  = [(Weathergov.forecast_url self,
      [("Accept", "application/geo+json");
       ("User-Agent", "(i3pystatus.weather.Weathergov)")])].
Proof.
  intros Hvalid.
  destruct (valid_cycle_shape rt self st Hvalid) as (v & evs & _ & Hreq & _ & ->).
  erewrite events_since_app; [|reflexivity].
  rewrite !requests_in_app, Hreq. simpl.
  unfold diagnostic. destruct (is_None v); [done|].
  by destruct (getitem v (PyStr "properties")) as [?|[]].
Qed.

Lemma valid_cycle_sends_one_request_witness :
  valid (Sample.instance_of (Sample.settings_with "metric" "!"))
  ∧ requests_in
      (events_since Sample.filled
         (Weathergov.check_weather (Sample.serving 503 "busy" None)
            (Sample.instance_of (Sample.settings_with "metric" "!"))
            Sample.filled).2)
    = [(Weathergov.url_template_format "KNYC",
        [("Accept", "application/geo+json");
         ("User-Agent", "(i3pystatus.weather.Weathergov)")])].
Proof.
  assert (H : valid (Sample.instance_of (Sample.settings_with "metric" "!")))
    by (split; [by right | done]).
  split; [exact H|].
  exact (valid_cycle_sends_one_request (Sample.serving 503 "busy" None)
           (Sample.instance_of (Sample.settings_with "metric" "!"))
           Sample.filled H).
Defined.

(** X8: with valid [units] and a [location_code], a cycle whose fetch
    returns [v] clears the error field twice, fetches, and then ends with
    one ERROR record chosen by [v] followed by the store of the marker:
    "Failed to read weather data" for [None], "Failed to retrieve current
    conditions" for a [dict] without "properties", and the catch-all's
    "Uncaught error occurred", with the traceback, for every other value;
    the parser's attribute is left at [v]. *)
Theorem valid_cycle_ends_with_diagnostic (rt : runtime)
    (self : Weathergov.instance) (st : state) (v : pyval) :
  valid self →
  (WeathergovParser.get_weather_data rt (Weathergov.forecast_url self) st).1
    = Normal v →
  ∃ evs,
    events_since st (Weathergov.check_weather rt self st).2
    = [Store update_error_key (PyStr EmptyString);
       Store update_error_key (PyStr EmptyString)]
      ++ evs
      ++ [diagnostic v; Store update_error_key (Weathergov.marker self)]
    ∧ Forall no_store evs
    ∧ weather_data (Weathergov.check_weather rt self st).2 = v.
Proof.
  intros Hvalid Hv.
  destruct (valid_cycle_shape rt self st Hvalid)
    as (v' & evs & Hfetch & _ & Hns & ->).
  rewrite Hfetch in Hv. injection Hv as ->.
  exists evs. split; [|done].
  by erewrite events_since_app.
Qed.

Lemma valid_cycle_ends_with_diagnostic_witness :
  ∃ evs,
    events_since Sample.filled
      (Weathergov.check_weather (Sample.answering (PyDict [("status", PyInt 404)]))
         (Sample.instance_of (Sample.settings_with "metric" "!"))
         Sample.filled).2
    = [Store update_error_key (PyStr EmptyString);
       Store update_error_key (PyStr EmptyString)]
      ++ evs
      ++ [Log ERROR conditions_failed_message false;
          Store update_error_key (PyStr "!")]
    ∧ Forall no_store evs
    ∧ weather_data
        (Weathergov.check_weather (Sample.answering (PyDict [("status", PyInt 404)]))
           (Sample.instance_of (Sample.settings_with "metric" "!"))
           Sample.filled).2
      = PyDict [("status", PyInt 404)].
Proof.
  apply (valid_cycle_ends_with_diagnostic
           (Sample.answering (PyDict [("status", PyInt 404)]))
           (Sample.instance_of (Sample.settings_with "metric" "!"))
           Sample.filled (PyDict [("status", PyInt 404)])).
  - split; [by right | done].
  - reflexivity.
Defined.

(** X9: with valid [units] and a [location_code], whenever the response
    decodes to a [dict] that has a "properties" entry, whatever it holds,
    the cycle ends in the catch-all: it logs "Uncaught error occurred while
    checking weather" with the traceback and stores the marker. *)
Theorem observation_ends_in_catch_all (rt : runtime)
    (self : Weathergov.instance) (st : state) (d : list (string * pyval))
    (observed : pyval) :
  valid self →
  (WeathergovParser.get_weather_data rt (Weathergov.forecast_url self) st).1
    = Normal (PyDict d) →
  assoc "properties" d = Some observed →
  ∃ evs,
    events_since st (Weathergov.check_weather rt self st).2
    = evs ++ [Log ERROR ("Uncaught error occurred while checking weather. "
                         +:+ "Exception follows: ") true;
              Store update_error_key (Weathergov.marker self)]
    ∧ data (Weathergov.check_weather rt self st).2 !! update_error_key
      = Some (Weathergov.marker self).
Proof.
  intros Hvalid Hv Hprop.
  destruct (valid_cycle_shape rt self st Hvalid)
    as (v' & evs & Hfetch & _ & _ & Hrun).
  rewrite Hfetch in Hv. injection Hv as ->.
  rewrite Hrun.
  exists ([Store update_error_key (PyStr EmptyString);
           Store update_error_key (PyStr EmptyString)] ++ evs).
  split.
  - erewrite events_since_app; [|reflexivity].
    unfold diagnostic. simpl. by rewrite Hprop.
  - apply lookup_insert_eq.
Qed.

Lemma observation_ends_in_catch_all_witness :
  ∃ evs,
    events_since Sample.filled
      (Sample.cycle_on "imperial"
         (Sample.observation Sample.timestamp (PyInt 180) (PyInt 20))
         Sample.filled)
    = evs ++ [Log ERROR ("Uncaught error occurred while checking weather. "
                         +:+ "Exception follows: ") true;
              Store update_error_key (PyStr "!")]
    ∧ data (Sample.cycle_on "imperial"
              (Sample.observation Sample.timestamp (PyInt 180) (PyInt 20))
              Sample.filled) !! update_error_key
      = Some (PyStr "!").
Proof.
  eapply (observation_ends_in_catch_all
            (Sample.answering
               (Sample.observation Sample.timestamp (PyInt 180) (PyInt 20)))
            (Sample.instance_of (Sample.settings_with "imperial" "!"))
            Sample.filled).
  - split; [by left | done].
  - reflexivity.
  - reflexivity.
Defined.

(** X10: whatever the runtime, the configuration and the state, a cycle
    assigns no key of the record other than [update_error], leaves every
    other field at its value, and leaves the configured marker in
    [update_error]. *)
Theorem check_weather_writes_only_update_error (rt : runtime)
    (self : Weathergov.instance) (st : state) :
  let st' := (Weathergov.check_weather rt self st).2 in
  (∀ key, populated (events_since st st') key → key = "update_error")
  ∧ (∀ key, key ≠ "update_error" → data st' !! key = data st !! key)
  ∧ data st' !! "update_error"
    = Some (PyStr (Weathergov.update_error (Weathergov.config self))).
Proof.
  cbv zeta.
  destruct (check_weather_effect rt self st) as [_ [Hd (evs & Ht & Hf)]].
  rewrite (events_since_app _ _ _ Ht), Hd. split; [|split].
  - intros key (v & Hin). rewrite Forall_forall in Hf. by apply Hf in Hin.
  - intros key Hkey. by apply lookup_insert_ne.
  - apply lookup_insert_eq.
Qed.

(** ** Headings, temperatures and measurements *)

(** X11: for every int heading, line 182 gives the integer nearest to
    [(d mod 360) / 45], ties to even: the division in floats loses nothing.
    The index lies between 0 and 8, and it is 8 exactly for the headings
    from 338 to 359 modulo 360. *)
Theorem wind_index_of_int (rt : runtime) (d : Z) (st : state) :
  Weathergov.wind_index_of rt (PyInt d) st
    = (Normal (PyInt (round_half_even (d mod 360) 45)), st)
  ∧ 0 ≤ round_half_even (d mod 360) 45 ≤ 8
  ∧ (round_half_even (d mod 360) 45 = 8 ↔ 338 ≤ d mod 360).
Proof.
  assert (Hall : forallb
            (λ r, match rbind (truediv (PyInt r) (PyInt 45)) round with
                  | Ok (PyInt i) =>
                      (i =? round_half_even r 45) && (0 <=? i) && (i <=? 8)
                      && Bool.eqb (i =? 8) (338 <=? r)
                  | _ => false
                  end)
            (map Z.of_nat (seq 0 360)) = true) by (vm_compute; reflexivity).
  rewrite forallb_forall in Hall.
  assert (Hr : 0 ≤ d mod 360 < 360) by (apply Z.mod_pos_bound; lia).
  specialize (Hall (d mod 360)).
  assert (Hin : In (d mod 360) (map Z.of_nat (seq 0 360))).
  { apply in_map_iff. exists (Z.to_nat (d mod 360)). split; [lia|].
    apply in_seq. lia. }
  apply Hall in Hin.
  unfold Weathergov.wind_index_of, Weathergov.round_quotient, mbind, M_bind,
    bind, lift. cbn [mod_ as_number arith Z.eqb].
  unfold rbind in Hin.
  destruct (truediv (PyInt (d mod 360)) (PyInt 45)) as [q|]; [|done].
  destruct (round q) as [[| |i| | | | | |]|]; try done.
  apply andb_true_iff in Hin as [Hin H8].
  apply andb_true_iff in Hin as [Hin Hle].
  apply andb_true_iff in Hin as [Heq Hge].
  apply Z.eqb_eq in Heq. subst i.
  split; [done|]. split; [lia|].
  apply Bool.eqb_prop in H8.
  rewrite <- Z.eqb_eq, <- Z.leb_le. by rewrite H8.
Qed.

(** X12: a heading that is not a number (null, a string, a list, an
    object) yields no index: line 182 raises, without any effect. *)
Theorem wind_index_of_non_number (rt : runtime) (v : pyval) (st : state) :
  as_number v = None →
  ∃ e, Weathergov.wind_index_of rt v st = (Raise e, st).
Proof.
  intros Hv.
  unfold Weathergov.wind_index_of, Weathergov.round_quotient, mbind, M_bind,
    bind, lift.
  destruct v; try discriminate; simpl; try by eexists.
  destruct (str_format rt s (PyInt 360)); simpl; by eexists.
Qed.

Lemma wind_index_of_non_number_witness :
  ∃ e, Weathergov.wind_index_of Sample.offline PyNone Sample.fresh
       = (Raise e, Sample.fresh).
Proof.
  by apply (wind_index_of_non_number Sample.offline PyNone Sample.fresh).
Defined.



(** X14: on an object [observed], the measurement [name] is [None] when the
    entry is missing and when it is an object without "value"; it is the
    "value" when there is one; and when the entry is anything but an object
    (null included) the lookup raises [AttributeError], as it does when
    [observed] itself is not an object. *)
Theorem nested_value_cases (d : list (string * pyval)) (name : string)
    (st : state) :
  (assoc name d = None
   → Weathergov.nested_value (PyDict d) name st = (Normal PyNone, st))
  ∧ (∀ m, assoc name d = Some (PyDict m)
          → Weathergov.nested_value (PyDict d) name st
            = (Normal (default PyNone (assoc "value" m)), st))
  ∧ (∀ x, assoc name d = Some x → (∀ m, x ≠ PyDict m)
          → Weathergov.nested_value (PyDict d) name st
            = (Raise AttributeError, st))
  ∧ (∀ x, (∀ m, x ≠ PyDict m)
          → Weathergov.nested_value x name st = (Raise AttributeError, st)).
Proof.
  unfold Weathergov.nested_value, mbind, M_bind, bind, lift. simpl.
  split; [by intros ->|]. split; [|split].
  - intros m ->. simpl. by destruct (assoc "value" m).
  - intros x -> Hx. destruct x; try done. by destruct (Hx d0).
  - intros x Hx. destruct x; try done. by destruct (Hx d0).
Qed.

Lemma nested_value_cases_witness :
  Weathergov.nested_value (PyDict [("dewpoint", PyNone)]) "temperature"
    Sample.fresh = (Normal PyNone, Sample.fresh)
  ∧ Weathergov.nested_value (PyDict [("temperature", Sample.measured (PyInt 20))])
      "temperature" Sample.fresh = (Normal (PyInt 20), Sample.fresh)
  ∧ Weathergov.nested_value (PyDict [("temperature", PyNone)]) "temperature"
      Sample.fresh = (Raise AttributeError, Sample.fresh)
  ∧ Weathergov.nested_value (PyList []) "temperature" Sample.fresh
    = (Raise AttributeError, Sample.fresh).
Proof.
  split; [|split; [|split]].
  - destruct (nested_value_cases [("dewpoint", PyNone)] "temperature"
                Sample.fresh) as (H & _).
    by apply H.
  - destruct (nested_value_cases [("temperature", Sample.measured (PyInt 20))]
                "temperature" Sample.fresh) as (_ & H & _).
    by apply (H [("unitCode", PyStr "wmoUnit"); ("value", PyInt 20)]).
  - destruct (nested_value_cases [("temperature", PyNone)] "temperature"
                Sample.fresh) as (_ & _ & H & _).
    by apply (H PyNone).
  - destruct (nested_value_cases [] "temperature" Sample.fresh)
      as (_ & _ & _ & H).
    by apply (H (PyList [])).
Defined.

(** X15: [observation_time] gets bound exactly when [observed] is an object
    whose "timestamp" (the empty string when missing) is a string that
    [fromisoformat] accepts; in every other case the step falls through
    with the local unbound. Either way nothing is raised or changed. *)
Theorem parse_timestamp_binds_iff (rt : runtime) (observed : pyval)
    (st : state) :
  (∀ s, get observed "timestamp" (PyStr EmptyString) = Ok (PyStr s)
        → isoformat rt s = true
        → Weathergov.parse_timestamp rt observed st
          = (Normal (Some (PyDatetime s)), st))
  ∧ ((∀ s, get observed "timestamp" (PyStr EmptyString) = Ok (PyStr s)
           → isoformat rt s = false)
     → Weathergov.parse_timestamp rt observed st = (Normal None, st)).
Proof.
  unfold Weathergov.parse_timestamp, try_except, any_Exception, mbind,
    M_bind, bind, lift.
  split.
  - intros s -> Hs. simpl. by rewrite Hs.
  - intros H. destruct (get observed "timestamp" (PyStr EmptyString)) as [t|e];
      simpl; [|done].
    destruct t; simpl; try done.
    by rewrite (H s eq_refl).
Qed.

Lemma parse_timestamp_binds_iff_witness :
  Weathergov.parse_timestamp
    (Sample.answering PyNone)
    (PyDict Sample.timestamp) Sample.fresh
    = (Normal (Some (PyDatetime "2024-01-01T00:00:00+00:00")), Sample.fresh)
  ∧ Weathergov.parse_timestamp (Sample.answering PyNone) (PyDict [])
      Sample.fresh
    = (Normal None, Sample.fresh).
Proof.
  split.
  - destruct (parse_timestamp_binds_iff (Sample.answering PyNone)
                (PyDict Sample.timestamp) Sample.fresh) as (H & _).
    by apply H.
  - destruct (parse_timestamp_binds_iff (Sample.answering PyNone)
                (PyDict []) Sample.fresh) as (_ & H).
    apply H. by intros s [= <-].
Defined.
